(** * synthcity: the normalizing-flows plugin (plugins/generic/plugin_nflow.py)

    A shallow embedding of [NormalizingFlowsPlugin]: the batched sampling
    loop of [_generate] ([_internal_generate]), with the float arithmetic of
    its retry budget, the constructor [__init__], the static
    [hyperparameter_space] and [_fit], with the properties of the plugin's
    specification stated and proved over them. *)

From Stdlib Require Import ZArith QArith Qround Qabs Lia.
From stdpp Require Import gmap strings list.

Local Open Scope Z_scope.

(** ** Python values the embedding needs *)

(** Exceptions.  [_internal_generate] can raise [ZeroDivisionError] and
    [OverflowError] itself, from [count / batch]; everything else comes from
    a collaborator and is identified by the name of its class. *)
Inductive exn : Type :=
  | ZeroDivisionError
  | OverflowError
  | OtherError (cls : string).

(** The result of evaluating something that may raise. *)
Inductive py_result (A : Type) : Type :=
  | Ok (a : A)
  | Exc (e : exn).
Arguments Ok {A} a.
Arguments Exc {A} e.

Definition is_ok {A : Type} (r : py_result A) : bool :=
  match r with Ok _ => true | Exc _ => false end.

(** *** Floats

    A Python float is a binary64 number.  A finite one is kept as the
    rational number it is; the operations round as the hardware does, to the
    nearest binary64 number with ties to the even one. *)

(** The nearest integer, ties to the even one. *)
Definition round_half_even (t : Q) : Z :=
  let f := Qfloor t in
  match (t - inject_Z f ?= 1 # 2)%Q with
  | Lt => f
  | Eq => if Z.even f then f else f + 1
  | Gt => f + 1
  end.

(** [floor(log2 x)] for a rational [x > 0]. *)
Definition ilog2 (x : Q) : Z :=
  if Qle_bool 1 x then Z.log2 (Qfloor x)
  else - Z.log2_up (Qceiling (/ x)).

(** The exponent of the last place of the binary64 numbers of the size of
    [x]: 53 significant bits, and no exponent below -1074. *)
Definition ulp_exponent (x : Q) : Z := Z.max (ilog2 (Qabs x) - 52) (-1074).

(** [m * 2^e] *)
Definition scaled (m e : Z) : Q :=
  if e <? 0 then Qred (m # Z.to_pos (2 ^ (- e))) else inject_Z (m * 2 ^ e).

(** The binary64 number nearest to [x], were the exponent unbounded above. *)
Definition binary64 (x : Q) : Q :=
  if Qeq_bool x 0 then 0%Q
  else
    let e := ulp_exponent x in
    scaled (round_half_even (x / scaled 1 e)) e.

(** The rounded value is beyond the largest binary64 number. *)
Definition too_large (x : Q) : bool := Qle_bool (inject_Z (2 ^ 1024)) (Qabs x).

(** [a / b] on two Python ints: true division.  The result is the float
    nearest to the quotient; Python raises [OverflowError] when that is too
    large for a float. *)
Definition py_truediv (a b : Z) : py_result Q :=
  if b =? 0 then Exc ZeroDivisionError
  else
    let q := binary64 (inject_Z a / inject_Z b) in
    if too_large q then Exc OverflowError else Ok q.

(** [x + n] for a float [x] and a Python int [n] that is itself a float
    (as [1] is): the float nearest to the sum.  For a finite [x] and
    [n = 1] the sum is never too large for a float. *)
Definition py_float_add_int (x : Q) (n : Z) : Q := binary64 (x + inject_Z n).

(** [r < x] for an int [r] and a float [x] (Python compares them exactly). *)
Definition py_int_lt_float (r : Z) (x : Q) : bool :=
  negb (Qle_bool x (inject_Z r)).

(** ** The sampling loop *)

Section Sampling.

(** Rows of a table; what [self.model.generate] returns is kept as the list
    of its rows, in index order. *)
Variable Row : Type.

Definition DataFrame : Type := list Row.

(** [pd.concat(frames, ignore_index=True)] of pandas: the frame it returns,
    or the exception it raises (as it does when one of the objects is not a
    frame, for one). *)
Variable pd_concat : list DataFrame -> py_result DataFrame.

(** [self.model]: an opaque trained sampler.  A call [generate(n)] may
    change the sampler's internal state (its random stream) and either
    returns a frame or raises. *)
Variable ModelState : Type.

Inductive outcome : Type :=
  | Returned (df : DataFrame)
  | Raised (e : exn).

Variable generate : ModelState -> Z -> ModelState * outcome.

(** One call of [self.model.generate], as recorded in the trace: the value
    of [count] when the call was made, the argument, and what came back. *)
Record draw : Type := Draw {
  d_remaining : Z;
  d_asked : Z;
  d_outcome : outcome
}.

(** One call of [pd.concat], as recorded: the frames and what came back. *)
Record concat_call : Type := Concat {
  c_frames : list DataFrame;
  c_outcome : py_result DataFrame
}.

(** What the function shares with its environment: the sampler and, as
    ghosts, the calls made so far to the sampler and to [pd.concat]. *)
Record World : Type := mkWorld {
  model : ModelState;
  trace : list draw;
  concats : list concat_call
}.

(** Computations that read and write the world and may raise. *)
Definition M (A : Type) : Type := World -> py_result A * World.

Definition ret {A : Type} (a : A) : M A := fun w => (Ok a, w).

Definition bind {A B : Type} (m : M A) (k : A -> M B) : M B :=
  fun w =>
    match m w with
    | (Ok a, w') => k a w'
    | (Exc e, w') => (Exc e, w')
    end.

Definition lift {A : Type} (r : py_result A) : M A := fun w => (r, w).

(** [try: m except BaseException: h] *)
Definition try_except {A : Type} (m : M A) (h : M A) : M A :=
  fun w =>
    match m w with
    | (Ok a, w') => (Ok a, w')
    | (Exc _, w') => h w'
    end.

Notation "'let*' x ':=' m 'in' k" := (bind m (fun x => k))
  (at level 10, x name, m at level 100, k at level 200).

(** [self.model.generate(n)], called while [count] has value [remaining]. *)
Definition model_generate (remaining n : Z) : M DataFrame :=
  fun w =>
    let '(s, o) := generate (model w) n in
    let w' := mkWorld s (trace w ++ [Draw remaining n o]) (concats w) in
    match o with
    | Returned df => (Ok df, w')
    | Raised e => (Exc e, w')
    end.

(** [pd.concat(frames, ignore_index=True)] *)
Definition pandas_concat (frames : list DataFrame) : M DataFrame :=
  fun w =>
    let r := pd_concat frames in
    (r, mkWorld (model w) (trace w) (concats w ++ [Concat frames r])).

(** The local variables of [_internal_generate]. *)
Record Locals : Type := mkLocals {
  count : Z;
  batch : Z;
  result : DataFrame;
  max_retries : Q;
  retries : Z
}.

(** [count > 0 and retries < max_retries] *)
Definition loop_cond (l : Locals) : bool :=
  (0 <? count l) && py_int_lt_float (retries l) (max_retries l).

(** The body of the [while]: lines 280 to 289. *)
Definition loop_body (l : Locals) : M Locals :=
  let batch := Z.min (batch l) (count l) in
  let* result :=
    try_except
      (let* df := model_generate (count l) batch in
       pandas_concat [result l; df])
      (ret (result l)) in
  let count := count l - batch in
  let retries := retries l + 1 in
  ret (mkLocals count batch result (max_retries l) retries).

(** The [while] statement, unrolled at most [fuel] times. *)
Fixpoint while (fuel : nat) (l : Locals) : M Locals :=
  match fuel with
  | O => ret l
  | S fuel' =>
      if loop_cond l then let* l' := loop_body l in while fuel' l'
      else ret l
  end.

(** The number of iterations that [retries < max_retries] can still let
    through: every iteration adds one to [retries] and leaves
    [max_retries] alone, so this many unrollings always suffice (see
    [while_loop_unfold] and [while_loop_exits]). *)
Definition budget_left (l : Locals) : nat :=
  Z.to_nat (Qceiling (max_retries l) - retries l).

Definition while_loop (l : Locals) : M Locals := while (budget_left l) l.

(** Lines 271 to 291, returning all the locals at the [return]. *)
Definition _internal_generate_locals (count : Z) : M Locals :=
  let batch := Z.min 5000 count in
  let* result := model_generate count 1 in
  let* q := lift (py_truediv count batch) in
  let max_retries := py_float_add_int q 1 in
  let count := count - 1 in
  let retries := 0 in
  while_loop (mkLocals count batch result max_retries retries).

Definition _internal_generate (count : Z) : M DataFrame :=
  let* l := _internal_generate_locals count in
  ret (result l).

End Sampling.

Arguments Returned {Row} df.
Arguments Raised {Row} e.
Arguments Draw {Row} d_remaining d_asked d_outcome.
Arguments d_remaining {Row} d.
Arguments d_asked {Row} d.
Arguments d_outcome {Row} d.
Arguments Concat {Row} c_frames c_outcome.
Arguments c_frames {Row} c.
Arguments c_outcome {Row} c.
Arguments mkWorld {Row ModelState} model trace concats.
Arguments model {Row ModelState} w.
Arguments trace {Row ModelState} w.
Arguments concats {Row ModelState} w.
Arguments ret {Row ModelState A} a w.
Arguments bind {Row ModelState A B} m k w.
Arguments lift {Row ModelState A} r w.
Arguments try_except {Row ModelState A} m h w.
Arguments model_generate {Row ModelState} generate remaining n w.
Arguments pandas_concat {Row} pd_concat {ModelState} frames w.
Arguments mkLocals {Row} count batch result max_retries retries.
Arguments count {Row} l.
Arguments batch {Row} l.
Arguments result {Row} l.
Arguments max_retries {Row} l.
Arguments retries {Row} l.
Arguments loop_cond {Row} l.
Arguments loop_body {Row} pd_concat {ModelState} generate l w.
Arguments while {Row} pd_concat {ModelState} generate fuel l w.
Arguments budget_left {Row} l.
Arguments while_loop {Row} pd_concat {ModelState} generate l w.
Arguments _internal_generate_locals {Row} pd_concat {ModelState} generate
  count w.
Arguments _internal_generate {Row} pd_concat {ModelState} generate count w.

(** ** Vocabulary for the properties of the loop *)

(** The quotient [a / b] rounded up, for [b > 0]. *)
Definition ceil_div (a b : Z) : Z := (a + b - 1) / b.

Section SamplingVocabulary.

Variable Row : Type.
Variable pd_concat : list (DataFrame Row) -> py_result (DataFrame Row).
Variable ModelState : Type.
Variable generate : ModelState -> Z -> ModelState * outcome Row.

Implicit Types (l : Locals Row) (w : World Row ModelState) (d : draw Row).

(** The rows a call contributed: those of the returned frame, none when
    the call raised. *)
Definition rows_of (o : outcome Row) : DataFrame Row :=
  match o with Returned df => df | Raised _ => [] end.

Definition returned (o : outcome Row) : bool :=
  match o with Returned _ => true | Raised _ => false end.

(** [result] after the [try] statement of an iteration whose draw had the
    outcome [o]: the frame [pd.concat] returned, and the old [result] when
    the draw or [pd.concat] raised. *)
Definition after_try (acc : DataFrame Row) (o : outcome Row) : DataFrame Row :=
  match o with
  | Returned df =>
      match pd_concat [acc; df] with Ok r => r | Exc _ => acc end
  | Raised _ => acc
  end.

(** The calls of [pd.concat] that the [try] statement makes. *)
Definition concat_calls (acc : DataFrame Row) (o : outcome Row)
  : list (concat_call Row) :=
  match o with
  | Returned df => [Concat [acc; df] (pd_concat [acc; df])]
  | Raised _ => []
  end.

(** The locals and the world after one iteration that starts in [l], [w]. *)
Definition after_body l w : Locals Row * World Row ModelState :=
  let b := Z.min (batch l) (count l) in
  let o := snd (generate (model w) b) in
  (mkLocals (count l - b) b (after_try (result l) o) (max_retries l)
     (retries l + 1),
   mkWorld (fst (generate (model w) b)) (trace w ++ [Draw (count l) b o])
     (concats w ++ concat_calls (result l) o)).

Definition total_asked (evs : list (draw Row)) : Z :=
  foldr (fun d acc => d_asked d + acc) 0 evs.

Definition rows_drawn (evs : list (draw Row)) : DataFrame Row :=
  concat (map (fun d => rows_of (d_outcome d)) evs).

(** [result] after the iterations whose draws were [evs], from [acc]. *)
Fixpoint result_after (acc : DataFrame Row) (evs : list (draw Row))
  : DataFrame Row :=
  match evs with
  | [] => acc
  | d :: evs' => result_after (after_try acc (d_outcome d)) evs'
  end.

(** The calls of [pd.concat] made in those iterations. *)
Fixpoint concats_of (acc : DataFrame Row) (evs : list (draw Row))
  : list (concat_call Row) :=
  match evs with
  | [] => []
  | d :: evs' =>
      concat_calls acc (d_outcome d)
      ++ concats_of (after_try acc (d_outcome d)) evs'
  end.

(** A call of [pd.concat] that returned its frames stacked, in order. *)
Definition stacked (c : concat_call Row) : Prop :=
  c_outcome c = Ok (concat (c_frames c)).

(** [loop_run B l w l' w' evs]: started in [l], [w] with batch size [B],
    the loop ends in [l'], [w'] after the calls [evs] of the sampler. *)
Record loop_run (B : Z) l w l' w' (evs : list (draw Row)) : Prop := {
  run_count : count l' = 0;
  run_retries : retries l' = retries l + ceil_div (count l) B;
  run_max_retries : max_retries l' = max_retries l;
  run_trace : trace w' = trace w ++ evs;
  run_length : Z.of_nat (length evs) = ceil_div (count l) B;
  run_batches :
    Forall (fun d => 0 < d_remaining d /\
                     d_asked d = Z.min B (d_remaining d)) evs;
  run_total : total_asked evs = count l;
  run_result : result l' = result_after (result l) evs;
  run_concats : concats w' = concats w ++ concats_of (result l) evs
}.

(** A call of [_internal_generate] on a sampler in state [s], with empty
    traces. *)
Definition run (N : Z) (s : ModelState) :
    py_result (Locals Row) * World Row ModelState :=
  _internal_generate_locals pd_concat generate N (mkWorld s [] []).

Definition call (N : Z) (s : ModelState) :
    py_result (DataFrame Row) * World Row ModelState :=
  _internal_generate pd_concat generate N (mkWorld s [] []).

(** The locals on entry to the loop, after a first draw that gave [df0] and
    a quotient [count / batch] that gave [q]. *)
Definition at_loop_entry (N : Z) (df0 : DataFrame Row) (q : Q) : Locals Row :=
  mkLocals (N - 1) (Z.min 5000 N) df0 (py_float_add_int q 1) 0.

(** A draw succeeded: the sampler returned a frame with as many rows as
    were asked for. *)
Definition draw_ok d : Prop :=
  exists df, d_outcome d = Returned df /\ Z.of_nat (length df) = d_asked d.

(** The budget [mr] lets exactly [k] iterations through: the test
    [retries < mr] holds for [retries = 0, ..., k - 1] and no further. *)
Definition permits (mr : Q) (k : Z) : Prop :=
  forall r, 0 <= r -> (py_int_lt_float r mr = true <-> r < k).

End SamplingVocabulary.

Arguments rows_of {Row} o.
Arguments returned {Row} o.
Arguments after_try {Row} pd_concat acc o.
Arguments concat_calls {Row} pd_concat acc o.
Arguments after_body {Row} pd_concat {ModelState} generate l w.
Arguments total_asked {Row} evs.
Arguments rows_drawn {Row} evs.
Arguments result_after {Row} pd_concat acc evs.
Arguments concats_of {Row} pd_concat acc evs.
Arguments stacked {Row} c.
Arguments loop_run {Row} pd_concat {ModelState} B l w l' w' evs.
Arguments run {Row} pd_concat {ModelState} generate N s.
Arguments call {Row} pd_concat {ModelState} generate N s.
Arguments at_loop_entry {Row} N df0 q.
Arguments draw_ok {Row} d.

(** The counts for which the theorems on the budget are stated: up to
    [5000 * 2^39] rows, the quotient [count / batch] and its successor lie
    below [2^40], where the binary64 numbers are at most [2^-13] apart. *)
Definition budget_exact_up_to : Z := 5000 * 2 ^ 39.

(** ** The constructor and the hyperparameter space *)

(** Python values: scalars, lists and tuples, and instances of classes
    defined elsewhere, which are identified by the call that built them.  A
    float is kept as the rational number its literal denotes. *)
#[warnings="-register-all"]
Inductive pyval : Type :=
  | VNone
  | VBool (b : bool)
  | VInt (z : Z)
  | VFloat (q : Q)
  | VStr (s : string)
  | VList (items : list pyval)
  | VTuple (items : list pyval)
  | VNew (cls : string) (args : list pyval) (kwargs : list (string * pyval)).

(** The annotations that occur in the signature of [__init__]. *)
Inductive annotation : Type :=
  | TInt
  | TFloat
  | TBool
  | TStr
  | TOptional (cls : string)
  | TClass (cls : string)
  | TAny.

(** A value that is already of the annotated type. *)
Definition has_type (t : annotation) (v : pyval) : bool :=
  match t, v with
  | TInt, VInt _ => true
  | TFloat, VFloat _ => true
  | TBool, VBool _ => true
  | TStr, VStr _ => true
  | TOptional _, VNone => true
  | TOptional c, VNew c' _ _ => String.eqb c c'
  | TClass c, VNew c' _ _ => String.eqb c c'
  | TAny, _ => true
  | _, _ => false
  end.

Record param : Type := Param {
  p_name : string;
  p_annot : annotation;
  p_default : pyval
}.

(** The classes of [synthcity.plugins.core.distribution], as the calls in
    [hyperparameter_space] build them; [step] is [None] where the call does
    not pass it. *)
Inductive Distribution : Type :=
  | IntegerDistribution (name : string) (low high : Z) (step : option Z)
  | FloatDistribution (name : string) (low high : Q)
  | CategoricalDistribution (name : string) (choices : list pyval).

Definition dist_name (d : Distribution) : string :=
  match d with
  | IntegerDistribution name _ _ _ => name
  | FloatDistribution name _ _ => name
  | CategoricalDistribution name _ => name
  end.

(** Lines 190 to 214. *)
Definition hyperparameter_space (kwargs : gmap string pyval)
  : list Distribution :=
  [ IntegerDistribution "n_iter" 100 5000 (Some 100);
    IntegerDistribution "n_layers_hidden" 1 10 None;
    IntegerDistribution "n_units_hidden" 10 100 None;
    CategoricalDistribution "batch_size"
      [VInt 32; VInt 64; VInt 128; VInt 256; VInt 512];
    FloatDistribution "dropout" 0 0.2;
    CategoricalDistribution "batch_norm" [VBool true; VBool false];
    CategoricalDistribution "lr" [VFloat 1e-3; VFloat 1e-4; VFloat 2e-4];
    CategoricalDistribution "linear_transform_type"
      [VStr "lu"; VStr "permutation"; VStr "svd"];
    CategoricalDistribution "base_transform_type"
      [ VStr "affine-coupling";
        VStr "quadratic-coupling";
        VStr "rq-coupling";
        VStr "affine-autoregressive";
        VStr "quadratic-autoregressive";
        VStr "rq-autoregressive" ] ].

(** Equality of two scalars of the same type. *)
Definition scalar_eqb (a b : pyval) : bool :=
  match a, b with
  | VBool x, VBool y => Bool.eqb x y
  | VInt x, VInt y => x =? y
  | VFloat x, VFloat y => Qeq_bool x y
  | VStr x, VStr y => String.eqb x y
  | _, _ => false
  end.

(** Modelled from the spec: membership of a value in the declared domain of
    an axis ([Integer(low, high, step)], [Float(low, high)],
    [Categorical(choices)] of the data model); the distribution classes
    themselves are not part of this file. *)
Definition in_domain (d : Distribution) (v : pyval) : bool :=
  match d, v with
  | IntegerDistribution _ low high step, VInt z =>
      (low <=? z) && (z <=? high) &&
      match step with
      | Some k => (z - low) mod k =? 0
      | None => true
      end
  | FloatDistribution _ low high, VFloat q => Qle_bool low q && Qle_bool q high
  | CategoricalDistribution _ choices, _ => existsb (scalar_eqb v) choices
  | _, _ => false
  end.

Section Constructor.

(** [DEVICE] of [synthcity.utils.constants]. *)
Variable DEVICE : pyval.

(** What [pydantic.validate_arguments] does to an argument passed for a
    parameter with a given annotation: the value the function receives,
    or [None] when pydantic rejects the argument. *)
Variable validate : annotation -> pyval -> option pyval.

(** [Plugin.__init__] of [synthcity.plugins.core.plugin], called with a
    dictionary of keyword arguments: the attributes it leaves on [self],
    or the exception it raises. *)
Variable Plugin__init__ : gmap string pyval -> py_result (gmap string pyval).

(** Lines 113 to 139: the named parameters of [__init__], in order. *)
Definition signature : list param :=
  [ Param "n_iter" TInt (VInt 1000);
    Param "n_layers_hidden" TInt (VInt 1);
    Param "n_units_hidden" TInt (VInt 100);
    Param "batch_size" TInt (VInt 500);
    Param "num_transform_blocks" TInt (VInt 1);
    Param "dropout" TFloat (VFloat 0.1);
    Param "batch_norm" TBool (VBool false);
    Param "num_bins" TInt (VInt 8);
    Param "tail_bound" TFloat (VInt 3);
    Param "lr" TFloat (VFloat 1e-3);
    Param "apply_unconditional_transform" TBool (VBool true);
    Param "base_distribution" TStr (VStr "standard_normal");
    Param "linear_transform_type" TStr (VStr "permutation");
    Param "base_transform_type" TStr (VStr "rq-autoregressive");
    Param "encoder_max_clusters" TInt (VInt 10);
    Param "tabular" TBool (VBool true);
    Param "n_iter_min" TInt (VInt 100);
    Param "n_iter_print" TInt (VInt 50);
    Param "patience" TInt (VInt 5);
    Param "patience_metric" (TOptional "WeightedMetrics") VNone;
    Param "workspace" (TClass "Path") (VNew "Path" [VStr "workspace"] []);
    Param "compress_dataset" TBool (VBool false);
    Param "sampling_patience" TInt (VInt 500);
    Param "random_state" TInt (VInt 0);
    Param "device" TAny DEVICE ].

(** The value a parameter is bound to by a call with keywords [kw]: its
    default when the keyword is absent (defaults are not validated), the
    validated argument otherwise. *)
Definition bind_param (kw : gmap string pyval) (p : param)
  : py_result pyval :=
  match kw !! p_name p with
  | None => Ok (p_default p)
  | Some v =>
      match validate (p_annot p) v with
      | Some v' => Ok v'
      | None => Exc (OtherError "ValidationError")
      end
  end.

Fixpoint bind_params (ps : list param) (kw : gmap string pyval)
  : py_result (gmap string pyval) :=
  match ps with
  | [] => Ok ∅
  | p :: ps' =>
      match bind_param kw p with
      | Exc e => Exc e
      | Ok v =>
          match bind_params ps' kw with
          | Exc e => Exc e
          | Ok env => Ok (<[p_name p := v]> env)
          end
      end
  end.

(** The keywords that match no named parameter: they are collected in
    [**kwargs]. *)
Definition extra_kwargs (kw : gmap string pyval) : gmap string pyval :=
  filter (fun kv => kv.1 ∉ map p_name signature) kw.

(** The keywords of the call [super().__init__(...)], lines 142 to 149. *)
Definition super_kwargs (env kwargs : gmap string pyval)
  : gmap string pyval :=
  let pass (x : string) (m : gmap string pyval) :=
    match env !! x with Some v => <[x := v]> m | None => m end in
  pass "device"
    (pass "random_state"
       (pass "sampling_patience"
          (pass "workspace" (pass "compress_dataset" kwargs)))).

(** Lines 151 to 156. *)
Definition default_patience_metric (workspace : pyval) : pyval :=
  VNew "WeightedMetrics" []
    [ ("metrics", VList [VTuple [VStr "detection"; VStr "detection_mlp"]]);
      ("weights", VList [VInt 1]);
      ("workspace", workspace) ].

Definition rebind_patience_metric (env : gmap string pyval)
  : gmap string pyval :=
  match env !! "patience_metric", env !! "workspace" with
  | Some VNone, Some workspace =>
      <["patience_metric" := default_patience_metric workspace]> env
  | _, _ => env
  end.

(** Lines 158 to 180: the names [x] of the assignments [self.x = x], in
    order. *)
Definition assigned : list string :=
  [ "n_iter"; "n_layers_hidden"; "n_units_hidden"; "batch_size";
    "num_transform_blocks"; "dropout"; "batch_norm"; "num_bins";
    "tail_bound"; "apply_unconditional_transform"; "lr";
    "base_distribution"; "linear_transform_type"; "base_transform_type";
    "encoder_max_clusters"; "tabular";
    "n_iter_min"; "n_iter_print"; "patience"; "patience_metric" ].

(** [self.x = x] *)
Definition assign (env self : gmap string pyval) (x : string)
  : gmap string pyval :=
  match env !! x with Some v => <[x := v]> self | None => self end.

(** A call of [NormalizingFlowsPlugin] with the keywords [kw]: the
    attributes of the new instance, or the exception raised. *)
Definition __init__ (kw : gmap string pyval)
  : py_result (gmap string pyval) :=
  match bind_params signature kw with
  | Exc e => Exc e
  | Ok env =>
      match Plugin__init__ (super_kwargs env (extra_kwargs kw)) with
      | Exc e => Exc e
      | Ok self =>
          let env := rebind_patience_metric env in
          Ok (foldl (assign env) self assigned)
      end
  end.

End Constructor.


Arguments signature DEVICE : assert.
Arguments bind_param validate kw p : assert.

(** [typed_for x v]: [x] names a parameter of [__init__] and [v] has the
    type of its annotation. *)
Definition typed_for (DEVICE : pyval) (x : string) (v : pyval) : bool :=
  existsb (fun p => String.eqb (p_name p) x && has_type (p_annot p) v)
    (signature DEVICE).

(** The names of the declared axes. *)
Definition axis_names : list string :=
  map dist_name (hyperparameter_space ∅).

(** The keywords [super().__init__] gets when the call overrides none of
    the five parameters passed on and has no extra keyword. *)
Definition default_super_kwargs (DEVICE : pyval) : gmap string pyval :=
  <["device" := DEVICE]>
    (<["random_state" := VInt 0]>
       (<["sampling_patience" := VInt 500]>
          (<["workspace" := VNew "Path" [VStr "workspace"] []]>
             (<["compress_dataset" := VBool false]> ∅)))).


(** ** Stand-ins for the collaborators, used in the worked examples *)

(** A sampler that always returns as many rows as asked for; a row is the
    number of the call that produced it. *)
Definition steady_sampler (s : nat) (n : Z) : nat * outcome nat :=
  (S s, Returned (repeat s (Z.to_nat n))).

(** A sampler whose first call succeeds and whose later calls all raise. *)
Definition dying_sampler (s : nat) (n : Z) : nat * outcome nat :=
  (S s,
   match s with
   | O => Returned (repeat s (Z.to_nat n))
   | S _ => Raised (OtherError "RuntimeError")
   end).

(** A sampler that raises on every call. *)
Definition dead_sampler (s : nat) (n : Z) : nat * outcome nat :=
  (S s, Raised (OtherError "RuntimeError")).

(** [pd.concat] on frames: the frames stacked. *)
Definition stacking_concat (frames : list (DataFrame nat))
  : py_result (DataFrame nat) :=
  Ok (concat frames).

(** [pd.concat] on objects that are not frames: it raises. *)
Definition refusing_concat (frames : list (DataFrame nat))
  : py_result (DataFrame nat) :=
  Exc (OtherError "TypeError").

(** The locals at the [return] of [_internal_generate(7000)] on the steady
    sampler: the budget is the float nearest to 2.4. *)
Definition steady_7000 : Locals nat :=
  mkLocals 0 1999
    (repeat 0%nat 1 ++ repeat 1%nat 5000 ++ repeat 2%nat 1999)
    (5404319552844595 # 2251799813685248)%Q 2.

(** A count whose quotient by 5000 is too large for a float, and one at
    which the floats are two apart. *)
Definition overflowing_count : Z := 5000 * 2 ^ 1024.

Definition coarse_count : Z := 5000 * 2 ^ 53 + 2.

Definition cpu_device : pyval := VNew "device" [VStr "cpu"] [].

(** A validator that passes exactly the values of the annotated type. *)
Definition strict_validate (t : annotation) (v : pyval) : option pyval :=
  if has_type t v then Some v else None.

(** A base class that keeps the keywords it is given as attributes. *)
Definition keeping_Plugin__init__ (kw : gmap string pyval)
  : py_result (gmap string pyval) :=
  Ok kw.

(** ** Fitting *)

(** [bool(v)] for the values an attribute can hold; an instance of a class
    defined elsewhere counts as true, as an object without [__bool__] and
    [__len__] does. *)
Definition truthy (v : pyval) : bool :=
  match v with
  | VNone => false
  | VBool b => b
  | VInt z => negb (z =? 0)
  | VFloat q => negb (Qeq_bool q 0)
  | VStr s => negb (String.eqb s "")
  | VList items | VTuple items =>
      match items with [] => false | _ :: _ => true end
  | VNew _ _ _ => true
  end.

(** [self.x] *)
Definition getattr (self : gmap string pyval) (x : string)
  : py_result pyval :=
  match self !! x with
  | Some v => Ok v
  | None => Exc (OtherError "AttributeError")
  end.

(** Lines 245 to 263: the names [k] of the keywords [k=self.k] in the call
    of [NormalizingFlows], in order. *)
Definition NormalizingFlows_keywords : list string :=
  [ "n_iter"; "n_layers_hidden"; "n_units_hidden"; "batch_size";
    "num_transform_blocks"; "dropout"; "batch_norm"; "num_bins";
    "tail_bound"; "lr"; "apply_unconditional_transform";
    "base_distribution"; "linear_transform_type"; "base_transform_type";
    "n_iter_min"; "n_iter_print"; "patience"; "patience_metric"; "device" ].

(** Lines 222 to 241: the same for the call of [TabularFlows]. *)
Definition TabularFlows_keywords : list string :=
  [ "n_iter"; "n_layers_hidden"; "n_units_hidden"; "batch_size";
    "num_transform_blocks"; "dropout"; "batch_norm"; "num_bins";
    "tail_bound"; "lr"; "apply_unconditional_transform";
    "base_distribution"; "linear_transform_type"; "base_transform_type";
    "encoder_max_clusters";
    "n_iter_min"; "n_iter_print"; "patience"; "patience_metric"; "device" ].

(** The keyword arguments [k=self.k] for the names [ks], evaluated from left
    to right. *)
Fixpoint read_attrs (self : gmap string pyval) (ks : list string)
  : py_result (list (string * pyval)) :=
  match ks with
  | [] => Ok []
  | k :: ks' =>
      match getattr self k with
      | Exc e => Exc e
      | Ok v =>
          match read_attrs self ks' with
          | Exc e => Exc e
          | Ok kws => Ok ((k, v) :: kws)
          end
      end
  end.

Section Fit.

(** [X.dataframe()] for a data loader [X]: the frame, or the exception the
    loader raises.  The loader is a value: the two calls that [_fit] makes
    on the tabular path give the same. *)
Variable dataframe : pyval -> py_result pyval.

(** The constructors of the flow classes, which are defined elsewhere: the
    exception that the class [cls] raises when it is called with the
    positional arguments [args] and the keywords [kws], if it raises.  The
    instance it returns otherwise is identified by the call that built it. *)
Variable flow_init : string -> list pyval -> list (string * pyval)
                     -> option exn.

(** [model.fit(df)]: the model after training, or the exception raised. *)
Variable model_fit : pyval -> pyval -> py_result pyval.

(** The call of a flow class [cls] with [args] and [kws]. *)
Definition new_flow (cls : string) (args : list pyval)
    (kws : list (string * pyval)) : py_result pyval :=
  match flow_init cls args kws with
  | Some e => Exc e
  | None => Ok (VNew cls args kws)
  end.

(** Lines 219 to 264: the model that [_fit] builds and assigns to
    [self.model].  The arguments of a call are evaluated before the call,
    positional ones first: [X.dataframe()], then the attributes, then the
    constructor. *)
Definition build_model (self : gmap string pyval) (X : pyval)
  : py_result pyval :=
  match getattr self "tabular" with
  | Exc e => Exc e
  | Ok tabular =>
      if truthy tabular then
        match dataframe X with
        | Exc e => Exc e
        | Ok df =>
            match read_attrs self TabularFlows_keywords with
            | Exc e => Exc e
            | Ok kws => new_flow "TabularFlows" [df] kws
            end
        end
      else
        match read_attrs self NormalizingFlows_keywords with
        | Exc e => Exc e
        | Ok kws => new_flow "NormalizingFlows" [] kws
        end
  end.

(** [self._fit(X)]: what the call raises, if anything, and the attributes of
    [self] afterwards.  The value returned is [self] itself. *)
Definition _fit (self : gmap string pyval) (X : pyval)
  : py_result unit * gmap string pyval :=
  match build_model self X with
  | Exc e => (Exc e, self)
  | Ok model =>
      let self := <["model" := model]> self in
      match dataframe X with
      | Exc e => (Exc e, self)
      | Ok df =>
          match model_fit model df with
          | Exc e => (Exc e, self)
          | Ok trained => (Ok tt, <["model" := trained]> self)
          end
      end
  end.

End Fit.
(** ** Further vocabulary *)

(** The names passed on to [Plugin.__init__] by name. *)
Definition passed_on : list string :=
  [ "device"; "random_state"; "sampling_patience"; "workspace";
    "compress_dataset" ].

(** A keyword of the call is rejected by the validator. *)
Definition rejected (DEVICE : pyval)
    (validate : annotation -> pyval -> option pyval)
    (kw : gmap string pyval) : Prop :=
  exists p v, p ∈ signature DEVICE /\ kw !! p_name p = Some v /\
              validate (p_annot p) v = None.

(** An axis whose domain has a value: bounds in order, a positive step, at
    least one choice. *)
Definition well_formed (d : Distribution) : bool :=
  match d with
  | IntegerDistribution _ low high step =>
      (low <=? high) &&
      match step with Some k => 0 <? k | None => true end
  | FloatDistribution _ low high => Qle_bool low high
  | CategoricalDistribution _ choices =>
      match choices with [] => false | _ :: _ => true end
  end.

Section SamplingVocabularyMore.

Variable Row : Type.

(** The rows asked for in the calls that raised. *)
Definition asked_of_failed (evs : list (draw Row)) : Z :=
  foldr (fun d acc => if returned (d_outcome d) then acc else d_asked d + acc)
    0 evs.

(** A call that returned gave as many rows as were asked for. *)
Definition sized (d : draw Row) : Prop :=
  forall df, d_outcome d = Returned df -> Z.of_nat (length df) = d_asked d.

End SamplingVocabularyMore.

Arguments asked_of_failed {Row} evs.
Arguments sized {Row} d.

(** ** Further stand-ins for the worked examples *)

(** The locals at the [return] of [_internal_generate(7)] on the dying
    sampler. *)
Definition dying_7 : Locals nat :=
  mkLocals 0 6 [0%nat] 2%Q 1.

(** A data loader's frame, one that cannot be read, a constructor that never
    raises, one that rejects the frame it is given, and two trainers: one
    that succeeds and one that raises. *)
Definition frame_of (X : pyval) : py_result pyval :=
  Ok (VNew "DataFrame" [X] []).

Definition no_frame (X : pyval) : py_result pyval :=
  Exc (OtherError "IOError").

Definition accepting_init (cls : string) (args : list pyval)
    (kws : list (string * pyval)) : option exn :=
  None.

Definition rejecting_init (cls : string) (args : list pyval)
    (kws : list (string * pyval)) : option exn :=
  Some (OtherError "ValueError").

Definition training_succeeds (m df : pyval) : py_result pyval :=
  Ok (VNew "Trained" [m] []).

Definition training_raises (m df : pyval) : py_result pyval :=
  Exc (OtherError "RuntimeError").

(** The plugin constructed with [dropout = 0.05] and no other keyword. *)
Definition dropout_plugin : gmap string pyval :=
  match __init__ cpu_device strict_validate keeping_Plugin__init__
          {["dropout" := VFloat 0.05]} with
  | Ok self => self
  | Exc _ => ∅
  end.

(** * Properties *)

(** ** Ceilings of quotients *)

Lemma ceil_div_0 b : 0 < b -> ceil_div 0 b = 0.
Proof. intros Hb. unfold ceil_div. apply Z.div_small. lia. Qed.

Lemma ceil_div_small a b : 0 < a <= b -> ceil_div a b = 1.
Proof.
  intros H. unfold ceil_div. symmetry.
  apply (Z.div_unique_pos _ _ 1 (a - 1)); lia.
Qed.

Lemma ceil_div_step a b : 0 < b -> ceil_div (a - b) b = ceil_div a b - 1.
Proof.
  intros Hb. unfold ceil_div.
  replace (a - b + b - 1) with (a + b - 1 + (-1) * b) by lia.
  rewrite Z.div_add by lia. lia.
Qed.

Lemma ceil_div_nonneg a b : 0 < b -> 0 <= a -> 0 <= ceil_div a b.
Proof. intros Hb Ha. unfold ceil_div. apply Z.div_pos; lia. Qed.

Lemma ceil_div_mul_lt a b : 0 < b -> ceil_div a b * b < a + b.
Proof.
  intros Hb. unfold ceil_div.
  pose proof (Z.mul_div_le (a + b - 1) b Hb). lia.
Qed.

(** ** Arithmetic of the retry budget *)

Lemma py_int_lt_float_iff r x :
  py_int_lt_float r x = true <-> (inject_Z r < x)%Q.
Proof.
  unfold py_int_lt_float. rewrite negb_true_iff.
  split.
  - intros H. apply Qnot_le_lt. intros Hle.
    apply Qle_bool_iff in Hle. congruence.
  - intros H. destruct (Qle_bool x (inject_Z r)) eqn:E; [|reflexivity].
    apply Qle_bool_iff in E. exfalso. exact (Qlt_not_le _ _ H E).
Qed.

(** *** Rounding *)

Lemma Qle_bool_comp x x' y y' :
  (x == x')%Q -> (y == y')%Q -> Qle_bool x y = Qle_bool x' y'.
Proof.
  intros Hx Hy. apply eq_true_iff_eq.
  rewrite !Qle_bool_iff, Hx, Hy. reflexivity.
Qed.

Lemma Qeq_bool_comp x x' y y' :
  (x == x')%Q -> (y == y')%Q -> Qeq_bool x y = Qeq_bool x' y'.
Proof.
  intros Hx Hy. apply eq_true_iff_eq.
  rewrite !Qeq_bool_iff, Hx, Hy. reflexivity.
Qed.

Lemma round_half_even_comp t t' :
  (t == t')%Q -> round_half_even t = round_half_even t'.
Proof.
  intros H. unfold round_half_even.
  rewrite (Qfloor_comp _ _ H).
  assert ((t - inject_Z (Qfloor t') ?= 1 # 2)%Q
          = (t' - inject_Z (Qfloor t') ?= 1 # 2)%Q) as ->
    by (rewrite H; reflexivity).
  reflexivity.
Qed.

Lemma ilog2_comp x y : (x == y)%Q -> ilog2 x = ilog2 y.
Proof.
  intros H. unfold ilog2.
  rewrite (Qle_bool_comp 1 1 x y (Qeq_refl 1) H), (Qfloor_comp _ _ H).
  assert (/ x == / y)%Q as Hinv by (rewrite H; reflexivity).
  rewrite (Qceiling_comp _ _ Hinv). reflexivity.
Qed.

(** Rounding sees the number, not the fraction that denotes it. *)
Lemma binary64_comp x y : (x == y)%Q -> binary64 x = binary64 y.
Proof.
  intros H. unfold binary64, ulp_exponent.
  rewrite (Qeq_bool_comp x y 0 0 H (Qeq_refl 0)).
  assert (Qabs x == Qabs y)%Q as Habs by (rewrite H; reflexivity).
  rewrite (ilog2_comp _ _ Habs).
  set (e := Z.max (ilog2 (Qabs y) - 52) (-1074)).
  assert (x / scaled 1 e == y / scaled 1 e)%Q as Ht by (rewrite H; reflexivity).
  rewrite (round_half_even_comp _ _ Ht). reflexivity.
Qed.

(** Rounding to the nearest integer never crosses an integer. *)
Lemma round_half_even_ge t m : (inject_Z m <= t)%Q -> m <= round_half_even t.
Proof.
  intros H. unfold round_half_even.
  assert (m <= Qfloor t) as Hf.
  { rewrite <- (Qfloor_Z m). apply Qfloor_resp_le, H. }
  destruct (t - inject_Z (Qfloor t) ?= 1 # 2)%Q;
    [destruct (Z.even (Qfloor t))| |]; lia.
Qed.

Lemma round_half_even_le t m : (t <= inject_Z m)%Q -> round_half_even t <= m.
Proof.
  intros H. unfold round_half_even.
  assert (Qfloor t <= m) as Hf.
  { rewrite Zle_Qle. eapply Qle_trans; [apply Qfloor_le | exact H]. }
  destruct (Z.eq_dec (Qfloor t) m) as [Hm|Hm].
  - assert ((t - inject_Z (Qfloor t) ?= 1 # 2)%Q = Lt) as ->; [|lia].
    apply Qlt_alt. rewrite Hm.
    apply Qle_lt_trans with (y := 0%Q); [|reflexivity].
    apply (Qplus_le_l _ _ (inject_Z m)). ring_simplify. exact H.
  - destruct (t - inject_Z (Qfloor t) ?= 1 # 2)%Q;
      [destruct (Z.even (Qfloor t))| |]; lia.
Qed.

Lemma scaled_neg m e :
  e < 0 -> (scaled m e == inject_Z m / inject_Z (2 ^ (- e)))%Q.
Proof.
  intros He. unfold scaled.
  assert ((e <? 0) = true) as -> by (apply Z.ltb_lt; exact He).
  rewrite Qred_correct, Qmake_Qdiv, Z2Pos.id; [reflexivity|].
  apply Z.pow_pos_nonneg; lia.
Qed.

(** Between 1 and [2^40] the binary64 numbers are the multiples of some
    [1 / (8192 * j)]. *)
Lemma binary64_normal x :
  (1 <= x)%Q -> (x < inject_Z (2 ^ 40))%Q ->
  exists j,
    0 < j /\
    (binary64 x ==
     inject_Z (round_half_even (x * inject_Z (8192 * j)))
     / inject_Z (8192 * j))%Q.
Proof.
  intros H1 H2.
  assert (0 < x)%Q as Hpos by (eapply Qlt_le_trans; [|exact H1]; reflexivity).
  assert (Qabs x == x)%Q as Habs by (apply Qabs_pos, Qlt_le_weak, Hpos).
  assert (1 <= Qfloor x < 2 ^ 40) as Hfl.
  { split.
    - change 1 with (Qfloor 1). apply Qfloor_resp_le, H1.
    - rewrite Zlt_Qlt. eapply Qle_lt_trans; [apply Qfloor_le | exact H2]. }
  assert (ilog2 (Qabs x) = Z.log2 (Qfloor x)) as Hlog.
  { rewrite (ilog2_comp _ _ Habs). unfold ilog2.
    assert (Qle_bool 1 x = true) as -> by (apply Qle_bool_iff, H1).
    reflexivity. }
  pose proof (Z.log2_nonneg (Qfloor x)) as HL0.
  assert (Z.log2 (Qfloor x) < 40) as HL1
    by (apply Z.log2_lt_pow2; lia).
  unfold binary64, ulp_exponent. rewrite Hlog.
  set (L := Z.log2 (Qfloor x)) in *.
  assert (Qeq_bool x 0 = false) as ->.
  { destruct (Qeq_bool x 0) eqn:E; [|reflexivity].
    apply Qeq_bool_eq in E. rewrite E in Hpos. discriminate Hpos. }
  replace (Z.max (L - 52) (-1074)) with (L - 52) by lia.
  exists (2 ^ (39 - L)).
  assert (0 < 2 ^ (39 - L)) as Hj by (apply Z.pow_pos_nonneg; lia).
  split; [exact Hj|].
  assert (2 ^ (- (L - 52)) = 8192 * 2 ^ (39 - L)) as Hs.
  { replace (- (L - 52)) with (13 + (39 - L)) by lia.
    rewrite Z.pow_add_r by lia. reflexivity. }
  set (s := 8192 * 2 ^ (39 - L)) in *.
  assert (0 < s) as Hs0 by lia.
  assert (~ inject_Z s == 0)%Q as Hs1.
  { intros E. apply (Qlt_irrefl 0). rewrite <- E at 2.
    change 0%Q with (inject_Z 0) at 1. rewrite <- Zlt_Qlt. exact Hs0. }
  rewrite scaled_neg by lia. rewrite Hs.
  assert (x / scaled 1 (L - 52) == x * inject_Z s)%Q as Ht.
  { rewrite scaled_neg by lia. rewrite Hs. field. exact Hs1. }
  rewrite (round_half_even_comp _ _ Ht). reflexivity.
Qed.

(** So rounding a number between 1 and [2^40] never crosses a multiple of
    [1 / 8192]. *)
Lemma binary64_ge x k :
  (1 <= x)%Q -> (x < inject_Z (2 ^ 40))%Q ->
  (inject_Z k / 8192 <= x)%Q -> (inject_Z k / 8192 <= binary64 x)%Q.
Proof.
  intros H1 H2 Hk.
  destruct (binary64_normal x H1 H2) as (j & Hj & ->).
  assert (0 < inject_Z (8192 * j))%Q as Hs
    by (change 0%Q with (inject_Z 0); rewrite <- Zlt_Qlt; lia).
  apply Qle_shift_div_l; [exact Hs|].
  assert (inject_Z k / 8192 * inject_Z (8192 * j) == inject_Z (k * j))%Q
    as -> by (rewrite !inject_Z_mult; field).
  rewrite <- Zle_Qle. apply round_half_even_ge.
  rewrite inject_Z_mult.
  assert (inject_Z k * inject_Z j == inject_Z k / 8192 * inject_Z (8192 * j))%Q
    as -> by (rewrite !inject_Z_mult; field).
  apply Qmult_le_compat_r; [exact Hk | apply Qlt_le_weak, Hs].
Qed.

Lemma binary64_le x k :
  (1 <= x)%Q -> (x < inject_Z (2 ^ 40))%Q ->
  (x <= inject_Z k / 8192)%Q -> (binary64 x <= inject_Z k / 8192)%Q.
Proof.
  intros H1 H2 Hk.
  destruct (binary64_normal x H1 H2) as (j & Hj & ->).
  assert (0 < inject_Z (8192 * j))%Q as Hs
    by (change 0%Q with (inject_Z 0); rewrite <- Zlt_Qlt; lia).
  apply Qle_shift_div_r; [exact Hs|].
  assert (inject_Z k / 8192 * inject_Z (8192 * j) == inject_Z (k * j))%Q
    as -> by (rewrite !inject_Z_mult; field).
  rewrite <- Zle_Qle. apply round_half_even_le.
  rewrite inject_Z_mult.
  assert (inject_Z k * inject_Z j == inject_Z k / 8192 * inject_Z (8192 * j))%Q
    as -> by (rewrite !inject_Z_mult; field).
  apply Qmult_le_compat_r; [exact Hk | apply Qlt_le_weak, Hs].
Qed.

(** Multiples of [1 / 8192] against ints and against each other. *)
Lemma Qlt_grid r k : (inject_Z r < inject_Z k / 8192)%Q <-> 8192 * r < k.
Proof.
  unfold Qlt, Qdiv, Qinv, Qmult, inject_Z. simpl. lia.
Qed.

Lemma Qle_grid r k : (inject_Z r <= inject_Z k / 8192)%Q <-> 8192 * r <= k.
Proof.
  unfold Qle, Qdiv, Qinv, Qmult, inject_Z. simpl. lia.
Qed.

Lemma grid_Qlt k r : (inject_Z k / 8192 < inject_Z r)%Q <-> k < 8192 * r.
Proof.
  unfold Qlt, Qdiv, Qinv, Qmult, inject_Z. simpl. lia.
Qed.

(** The quotient [a / b] of two ints against a multiple of [1 / 8192]. *)
Lemma quotient_ge_grid a b k :
  0 < b -> k * b <= 8192 * a ->
  (inject_Z k / 8192 <= inject_Z a / inject_Z b)%Q.
Proof.
  intros Hb H. destruct b as [|p|p]; try lia.
  unfold Qle, Qdiv, Qinv, Qmult, inject_Z. simpl. lia.
Qed.

Lemma quotient_le_grid a b k :
  0 < b -> 8192 * a <= k * b ->
  (inject_Z a / inject_Z b <= inject_Z k / 8192)%Q.
Proof.
  intros Hb H. destruct b as [|p|p]; try lia.
  unfold Qle, Qdiv, Qinv, Qmult, inject_Z. simpl. lia.
Qed.

Lemma grid_plus_1 k :
  (inject_Z k / 8192 + inject_Z 1 == inject_Z (k + 8192) / 8192)%Q.
Proof. rewrite inject_Z_plus. field. Qed.

(** A float between 1 and [2^40] is not too large. *)
Lemma not_too_large q :
  (1 <= q)%Q -> (q < inject_Z (2 ^ 40))%Q -> too_large q = false.
Proof.
  intros H1 H2. unfold too_large.
  destruct (Qle_bool (inject_Z (2 ^ 1024)) (Qabs q)) eqn:E; [|reflexivity].
  apply Qle_bool_iff in E. rewrite Qabs_pos in E.
  - exfalso. apply (Qlt_not_le _ _ H2).
    eapply Qle_trans; [|exact E].
    rewrite <- Zle_Qle. apply Z.pow_le_mono_r; lia.
  - eapply Qle_trans; [|exact H1]. discriminate.
Qed.

(** For a count up to [budget_exact_up_to] the division does not overflow,
    and the two roundings leave the budget between the same multiples of
    [1 / 8192] as the exact [count / batch + 1]. *)
Lemma budget_bounds N :
  1 <= N <= budget_exact_up_to ->
  exists q lo hi,
    py_truediv N (Z.min 5000 N) = Ok q /\
    (inject_Z lo / 8192 <= py_float_add_int q 1)%Q /\
    (py_float_add_int q 1 <= inject_Z hi / 8192)%Q /\
    8192 * (N / Z.min 5000 N + 1) <= lo /\
    hi < 8192 * (N / Z.min 5000 N + 2) /\
    (N mod Z.min 5000 N = 0 -> hi = 8192 * (N / Z.min 5000 N + 1)) /\
    (N mod Z.min 5000 N <> 0 -> 8192 * (N / Z.min 5000 N + 1) < lo).
Proof.
  unfold budget_exact_up_to. intros HN.
  set (B := Z.min 5000 N).
  assert (0 < B <= 5000) as HB by (unfold B; lia).
  pose proof (Z.div_mod N B ltac:(lia)) as Hdm.
  pose proof (Z.mod_pos_bound N B ltac:(lia)) as Hm.
  set (n := N / B) in *. set (m := N mod B) in *.
  assert (1 <= n <= 2 ^ 39) as Hn.
  { assert (B <= N) by (unfold B; lia).
    assert (N <= B * 2 ^ 39) by (unfold B; lia). nia. }
  set (x := (inject_Z N / inject_Z B)%Q).
  set (lo := 8192 * n + (if m =? 0 then 0 else 1)).
  set (hi := 8192 * n + (if m =? 0 then 0 else 8191)).
  assert (8192 <= lo /\ hi < 8192 * 2 ^ 39 + 8192) as Hlh
    by (unfold lo, hi; destruct (m =? 0); lia).
  assert (inject_Z lo / 8192 <= x)%Q as Hlo.
  { apply quotient_ge_grid; [lia|]. unfold lo.
    destruct (Z.eqb_spec m 0); nia. }
  assert (x <= inject_Z hi / 8192)%Q as Hhi.
  { apply quotient_le_grid; [lia|]. unfold hi.
    destruct (Z.eqb_spec m 0); nia. }
  assert (forall y k k',
            8192 <= k -> k' < 8192 * 2 ^ 40 ->
            (inject_Z k / 8192 <= y)%Q -> (y <= inject_Z k' / 8192)%Q ->
            (1 <= y)%Q /\ (y < inject_Z (2 ^ 40))%Q) as Hrange.
  { intros y k k' Hk Hk' Hl Hh. split.
    - eapply Qle_trans; [|exact Hl]. apply (Qle_grid 1). lia.
    - eapply Qle_lt_trans; [exact Hh|]. apply grid_Qlt. exact Hk'. }
  destruct (Hrange x lo hi ltac:(lia) ltac:(lia) Hlo Hhi) as [Hx1 Hx2].
  pose proof (binary64_ge x lo Hx1 Hx2 Hlo) as Hqlo.
  pose proof (binary64_le x hi Hx1 Hx2 Hhi) as Hqhi.
  set (q := binary64 x) in *.
  destruct (Hrange q lo hi ltac:(lia) ltac:(lia) Hqlo Hqhi) as [Hq1 Hq2].
  assert (inject_Z (lo + 8192) / 8192 <= q + inject_Z 1)%Q as Hylo.
  { rewrite <- grid_plus_1. apply Qplus_le_l. exact Hqlo. }
  assert (q + inject_Z 1 <= inject_Z (hi + 8192) / 8192)%Q as Hyhi.
  { rewrite <- grid_plus_1. apply Qplus_le_l. exact Hqhi. }
  destruct (Hrange (q + inject_Z 1)%Q (lo + 8192) (hi + 8192)
              ltac:(lia) ltac:(lia) Hylo Hyhi) as [Hy1 Hy2].
  exists q, (lo + 8192), (hi + 8192).
  split; [|split; [|split]].
  - unfold py_truediv.
    assert ((B =? 0) = false) as -> by (apply Z.eqb_neq; lia).
    fold x. fold q. rewrite (not_too_large q Hq1 Hq2). reflexivity.
  - apply binary64_ge; assumption.
  - apply binary64_le; assumption.
  - unfold lo, hi. destruct (Z.eqb_spec m 0); repeat split; lia.
Qed.

(** So for such a count [retries < max_retries] is [retries < count /
    batch + 1], decided on the ints by [retries * batch < count + batch]. *)
Lemma budget_allows_iff N :
  1 <= N <= budget_exact_up_to ->
  exists q,
    py_truediv N (Z.min 5000 N) = Ok q /\
    forall r,
      (inject_Z r < py_float_add_int q 1)%Q <->
      r * Z.min 5000 N < N + Z.min 5000 N.
Proof.
  intros HN.
  destruct (budget_bounds N HN)
    as (q & lo & hi & Hq & Hlo & Hhi & Hlo1 & Hhi2 & Hdiv & Hndiv).
  exists q. split; [exact Hq|]. intros r.
  set (B := Z.min 5000 N) in *.
  assert (0 < B) as HB by (unfold B; lia).
  pose proof (Z.div_mod N B ltac:(lia)) as Hdm.
  pose proof (Z.mod_pos_bound N B ltac:(lia)) as Hm.
  set (n := N / B) in *. set (m := N mod B) in *.
  split.
  - intros Hr.
    assert (8192 * r < hi) as Hrh
      by (apply Qlt_grid; eapply Qlt_le_trans; [exact Hr | exact Hhi]).
    destruct (Z.eq_dec m 0) as [Hz|Hz].
    + specialize (Hdiv Hz). nia.
    + assert (r <= n + 1) by lia. nia.
  - intros Hr. eapply Qlt_le_trans; [|exact Hlo]. apply Qlt_grid.
    destruct (Z.eq_dec m 0) as [Hz|Hz].
    + assert (r <= n) by nia. lia.
    + specialize (Hndiv Hz). assert (r <= n + 1) by nia. lia.
Qed.

(** ** The loop *)

Section SamplingFacts.

Variable Row : Type.
Variable pd_concat : list (DataFrame Row) -> py_result (DataFrame Row).
Variable ModelState : Type.
Variable generate : ModelState -> Z -> ModelState * outcome Row.

Implicit Types (l : Locals Row) (w : World Row ModelState) (d : draw Row).
Implicit Types (evs : list (draw Row)) (acc : DataFrame Row).

(** The body never raises: whatever the sampler or [pd.concat] raises is
    absorbed, and [result] is then left as it was. *)
Lemma loop_body_eq l w :
  loop_body pd_concat generate l w =
  (Ok (fst (after_body pd_concat generate l w)),
   snd (after_body pd_concat generate l w)).
Proof.
  unfold loop_body, after_body, bind, try_except, model_generate,
    pandas_concat, ret, after_try, concat_calls.
  destruct (generate (model w) (Z.min (batch l) (count l))) as [s [df|e]];
    simpl.
  - destruct (pd_concat [result l; df]); reflexivity.
  - rewrite app_nil_r. reflexivity.
Qed.

Lemma loop_cond_true l :
  loop_cond l = true <->
  0 < count l /\ (inject_Z (retries l) < max_retries l)%Q.
Proof.
  unfold loop_cond. rewrite andb_true_iff, Z.ltb_lt, py_int_lt_float_iff.
  reflexivity.
Qed.

Lemma lt_Qceiling r x : (inject_Z r < x)%Q <-> r < Qceiling x.
Proof.
  split; intros H.
  - rewrite Zlt_Qlt. eapply Qlt_le_trans; [exact H | apply Qle_ceiling].
  - destruct (Qlt_le_dec (inject_Z r) x) as [Hlt|Hle]; [exact Hlt|].
    apply Qceiling_resp_le in Hle. rewrite Qceiling_Z in Hle. lia.
Qed.

Lemma budget_left_step l w :
  (inject_Z (retries l) < max_retries l)%Q ->
  budget_left l = S (budget_left (fst (after_body pd_concat generate l w))).
Proof.
  intros H. apply lt_Qceiling in H. unfold budget_left. simpl. lia.
Qed.

Lemma budget_left_0 l : budget_left l = O -> loop_cond l = false.
Proof.
  intros H. apply not_true_is_false. rewrite loop_cond_true.
  intros [_ Hlt]. apply lt_Qceiling in Hlt. unfold budget_left in H. lia.
Qed.

(** [while_loop] is the [while] statement: it satisfies the statement's
    unfolding equation, so no unrolling is ever cut short. *)
Lemma while_loop_unfold l w :
  while_loop pd_concat generate l w =
  if loop_cond l
  then while_loop pd_concat generate
         (fst (after_body pd_concat generate l w))
         (snd (after_body pd_concat generate l w))
  else (Ok l, w).
Proof.
  unfold while_loop. destruct (loop_cond l) eqn:Hc.
  - pose proof Hc as Hc'. apply loop_cond_true in Hc' as [_ Hlt].
    rewrite (budget_left_step l w Hlt). cbn [while]. rewrite Hc.
    unfold bind. rewrite loop_body_eq. reflexivity.
  - destruct (budget_left l); cbn [while]; [|rewrite Hc]; reflexivity.
Qed.

(** More unrollings than [budget_left] change nothing. *)
Lemma while_enough_fuel n l w :
  (budget_left l <= n)%nat ->
  while pd_concat generate n l w = while_loop pd_concat generate l w.
Proof.
  revert l w. induction n as [|n IH]; intros l w Hn.
  - unfold while_loop. replace (budget_left l) with O by lia. reflexivity.
  - rewrite while_loop_unfold. cbn [while]. destruct (loop_cond l) eqn:Hc.
    + unfold bind. rewrite loop_body_eq. apply IH.
      apply loop_cond_true in Hc as [_ Hlt].
      rewrite (budget_left_step l w Hlt) in Hn. lia.
    + reflexivity.
Qed.

(** The loop always returns, in a state where its condition is false. *)
Lemma while_loop_exits l w :
  exists l' w',
    while_loop pd_concat generate l w = (Ok l', w') /\ loop_cond l' = false.
Proof.
  remember (budget_left l) as n eqn:Hn. revert l w Hn.
  induction n as [|n IH]; intros l w Hn.
  - exists l, w. symmetry in Hn. apply budget_left_0 in Hn.
    rewrite while_loop_unfold, Hn. auto.
  - rewrite while_loop_unfold. destruct (loop_cond l) eqn:Hc.
    + apply IH. apply loop_cond_true in Hc as [_ Hlt].
      rewrite (budget_left_step l w Hlt) in Hn. lia.
    + exists l, w. auto.
Qed.

(** What any run of the loop does, whatever the locals it starts from. *)
Lemma while_loop_any n : forall l w,
  (budget_left l <= n)%nat ->
  exists l' w' evs,
    while_loop pd_concat generate l w = (Ok l', w') /\
    loop_cond l' = false /\
    trace w' = trace w ++ evs /\
    (length evs <= budget_left l)%nat /\
    retries l' = retries l + Z.of_nat (length evs) /\
    max_retries l' = max_retries l /\
    result l' = result_after pd_concat (result l) evs /\
    concats w' = concats w ++ concats_of pd_concat (result l) evs.
Proof.
  induction n as [|n IH]; intros l w Hn; rewrite while_loop_unfold.
  - rewrite (budget_left_0 l) by lia.
    exists l, w, []. simpl. rewrite !app_nil_r.
    repeat split; try reflexivity; try lia. apply budget_left_0. lia.
  - destruct (loop_cond l) eqn:Hc.
    + pose proof Hc as Hc'. apply loop_cond_true in Hc' as [_ Hlt].
      pose proof (budget_left_step l w Hlt) as Hstep.
      destruct (IH (fst (after_body pd_concat generate l w))
                  (snd (after_body pd_concat generate l w)) ltac:(lia))
        as (l' & w' & evs & Hrun & Hexit & Htr & Hlen & Hret & Hmr & Hres
            & Hcs).
      exists l', w',
        (Draw (count l) (Z.min (batch l) (count l))
           (snd (generate (model w) (Z.min (batch l) (count l)))) :: evs).
      cbn [after_body fst snd trace retries max_retries result concats]
        in Htr, Hret, Hmr, Hres, Hcs.
      split; [exact Hrun|]. split; [exact Hexit|].
      split; [rewrite Htr, <- app_assoc; reflexivity|].
      split; [simpl; lia|].
      split; [rewrite Hret; simpl length; lia|].
      split; [exact Hmr|].
      split; [exact Hres|].
      rewrite Hcs, <- app_assoc. reflexivity.
    + exists l, w, []. simpl. rewrite !app_nil_r.
      repeat split; try reflexivity; try lia. exact Hc.
Qed.

(** As long as the budget covers [ceil_div (count l) B] more iterations,
    the loop runs exactly that many, whatever the sampler does, and ends
    with [count = 0]. *)
Lemma while_loop_run B (HB : 0 < B) n :
  forall l w,
    (Z.to_nat (count l) <= n)%nat ->
    0 <= count l ->
    (0 < count l -> batch l = B) ->
    (inject_Z (retries l + ceil_div (count l) B) < max_retries l)%Q ->
    exists l' w' evs,
      while_loop pd_concat generate l w = (Ok l', w') /\
      loop_run pd_concat B l w l' w' evs.
Proof.
  induction n as [|n IH]; intros l w Hn Hc Hb Hq;
    rewrite while_loop_unfold.
  - assert (count l = 0) as H0 by lia.
    unfold loop_cond. rewrite H0. simpl.
    exists l, w, []. split; [reflexivity|].
    split; rewrite ?H0, ?ceil_div_0, ?app_nil_r by lia;
      auto using Forall_nil with lia.
  - destruct (Z.eq_dec (count l) 0) as [H0|H0].
    + unfold loop_cond. rewrite H0. simpl.
      exists l, w, []. split; [reflexivity|].
      split; rewrite ?H0, ?ceil_div_0, ?app_nil_r by lia;
        auto using Forall_nil with lia.
    + assert (0 < count l) as Hpos by lia.
      specialize (Hb Hpos).
      assert (ceil_div (count l - Z.min B (count l)) B
              = ceil_div (count l) B - 1) as Hstep.
      { destruct (Z.le_gt_cases B (count l)).
        - rewrite Z.min_l by lia. apply ceil_div_step, HB.
        - rewrite Z.min_r, Z.sub_diag, ceil_div_0, ceil_div_small by lia.
          reflexivity. }
      assert (loop_cond l = true) as Hcond.
      { apply loop_cond_true. split; [exact Hpos|].
        eapply Qle_lt_trans; [|exact Hq]. rewrite <- Zle_Qle.
        pose proof (ceil_div_nonneg (count l) B HB Hc). lia. }
      rewrite Hcond.
      destruct (IH (fst (after_body pd_concat generate l w))
                  (snd (after_body pd_concat generate l w)))
        as (l' & w' & evs & Hrun & Hpost).
      * simpl. rewrite Hb. lia.
      * simpl. rewrite Hb. lia.
      * simpl. rewrite Hb. lia.
      * simpl. rewrite Hb, Hstep.
        replace (retries l + 1 + (ceil_div (count l) B - 1))
          with (retries l + ceil_div (count l) B) by lia.
        exact Hq.
      * destruct Hpost as [P1 P2 P3 P4 P5 P6 P7 P8 P9].
        cbn [after_body fst snd trace retries max_retries result concats
             count batch] in P2, P3, P4, P5, P7, P8, P9.
        rewrite Hb in *. rewrite Hstep in P2, P5.
        exists l', w', (Draw (count l) (Z.min B (count l))
                          (snd (generate (model w) (Z.min B (count l))))
                        :: evs).
        split; [exact Hrun|].
        split; simpl; try lia.
        -- exact P3.
        -- rewrite P4, <- app_assoc. reflexivity.
        -- constructor; [simpl; lia | exact P6].
        -- exact P8.
        -- rewrite P9, <- app_assoc. reflexivity.
Qed.

(** When the budget is what runs out: with more than [budget_left] full
    batches to go, the loop makes [budget_left] iterations and stops with
    rows still to be drawn. *)
Lemma while_loop_budget_binds n : forall l w,
  budget_left l = n ->
  0 < batch l ->
  Z.of_nat n * batch l < count l ->
  exists l' w',
    while_loop pd_concat generate l w = (Ok l', w') /\
    count l' = count l - Z.of_nat n * batch l /\
    retries l' = retries l + Z.of_nat n /\
    max_retries l' = max_retries l.
Proof.
  induction n as [|n IH]; intros l w Hn Hb Hc; rewrite while_loop_unfold.
  - rewrite (budget_left_0 l Hn). exists l, w.
    repeat split; try lia.
  - assert (loop_cond l = true) as ->.
    { apply loop_cond_true. split; [nia|].
      apply lt_Qceiling. unfold budget_left in Hn. lia. }
    assert (Z.min (batch l) (count l) = batch l) as Hmin by nia.
    destruct (IH (fst (after_body pd_concat generate l w))
                (snd (after_body pd_concat generate l w)))
      as (l' & w' & Hrun & Hcount & Hret & Hmr).
    + unfold budget_left in *. simpl. lia.
    + simpl. lia.
    + simpl. nia.
    + cbn [after_body fst snd retries max_retries count batch]
        in Hcount, Hret, Hmr.
      rewrite Hmin in *. rewrite Nat2Z.inj_succ.
      exists l', w'. split; [exact Hrun|].
      repeat split; try nia. exact Hmr.
Qed.

(** *** The frame that is returned *)

Lemma rows_drawn_cons d evs :
  rows_drawn (d :: evs) = rows_of (d_outcome d) ++ rows_drawn evs.
Proof. reflexivity. Qed.

(** When every [pd.concat] stacks its frames, [result] grows by the rows of
    the draws that returned, in the order of the calls. *)
Lemma result_after_stacked evs : forall acc,
  Forall stacked (concats_of pd_concat acc evs) ->
  result_after pd_concat acc evs = acc ++ rows_drawn evs.
Proof.
  induction evs as [|d evs IH]; intros acc H.
  - simpl. rewrite app_nil_r. reflexivity.
  - rewrite rows_drawn_cons. cbn [result_after concats_of] in *.
    apply Forall_app in H as [Hd Hrest].
    unfold after_try, concat_calls in *.
    destruct (d_outcome d) as [df|e]; simpl.
    + apply Forall_cons in Hd as [Hst _].
      unfold stacked in Hst. simpl in Hst. rewrite app_nil_r in Hst.
      rewrite Hst in *. rewrite (IH _ Hrest), <- app_assoc. reflexivity.
    + exact (IH _ Hrest).
Qed.

(** Draws that raise leave [result] alone, and [pd.concat] is not called. *)
Lemma result_after_failed evs : forall acc,
  Forall (fun d => returned (d_outcome d) = false) evs ->
  result_after pd_concat acc evs = acc /\ concats_of pd_concat acc evs = [].
Proof.
  induction evs as [|d evs IH]; intros acc H; [split; reflexivity|].
  apply Forall_cons in H as [Hd Hrest].
  cbn [result_after concats_of]. unfold after_try, concat_calls.
  destruct (d_outcome d) as [df|e]; [discriminate|].
  exact (IH acc Hrest).
Qed.

Lemma rows_drawn_ok evs :
  Forall draw_ok evs ->
  Z.of_nat (length (rows_drawn evs)) = total_asked evs.
Proof.
  induction 1 as [|d evs (df & Ho & Hlen) _ IH]; [reflexivity|].
  unfold rows_drawn in *. simpl. rewrite Ho. simpl.
  rewrite length_app, Nat2Z.inj_add, IH, Hlen. reflexivity.
Qed.

Lemma rows_drawn_sized evs :
  Forall sized evs ->
  Z.of_nat (length (rows_drawn evs)) + asked_of_failed evs = total_asked evs.
Proof.
  induction 1 as [|d evs Hd _ IH]; [reflexivity|].
  rewrite rows_drawn_cons, length_app, Nat2Z.inj_add. simpl.
  unfold sized in Hd. destruct (d_outcome d) as [df|e]; simpl.
  - rewrite (Hd df eq_refl). lia.
  - lia.
Qed.

(** *** The whole function *)

Lemma call_run N s :
  call pd_concat generate N s =
  (match fst (run pd_concat generate N s) with
   | Ok l => Ok (result l)
   | Exc e => Exc e
   end,
   snd (run pd_concat generate N s)).
Proof.
  unfold call, run, _internal_generate, bind.
  destruct (_internal_generate_locals pd_concat generate N (mkWorld s [] []))
    as [[l|e] w]; reflexivity.
Qed.

Lemma run_first_raises N s e :
  snd (generate s 1) = Raised e ->
  run pd_concat generate N s =
  (Exc e, mkWorld (fst (generate s 1)) [Draw N 1 (Raised e)] []).
Proof.
  intros H. unfold run, _internal_generate_locals, bind, model_generate.
  simpl. destruct (generate s 1) as [s1 o]. simpl in H. subst o.
  reflexivity.
Qed.

(** After a first draw that returned, the division decides: the loop is
    entered when it gives a float, and its exception is the call's
    otherwise. *)
Lemma run_first_returns N s df0 :
  snd (generate s 1) = Returned df0 ->
  run pd_concat generate N s =
  match py_truediv N (Z.min 5000 N) with
  | Ok q =>
      while_loop pd_concat generate (at_loop_entry N df0 q)
        (mkWorld (fst (generate s 1)) [Draw N 1 (Returned df0)] [])
  | Exc e =>
      (Exc e, mkWorld (fst (generate s 1)) [Draw N 1 (Returned df0)] [])
  end.
Proof.
  intros H. unfold run, _internal_generate_locals, bind, model_generate.
  cbn [model trace concats app].
  destruct (generate s 1) as [s1 o]. cbn [fst snd] in *. subst o.
  unfold lift.
  destruct (py_truediv N (Z.min 5000 N)) as [q|e]; reflexivity.
Qed.

Lemma py_truediv_self N : N <> 0 -> py_truediv N N = Ok 1%Q.
Proof.
  intros HN. unfold py_truediv.
  assert ((N =? 0) = false) as -> by (apply Z.eqb_neq; exact HN).
  assert (inject_Z N / inject_Z N == 1)%Q as Hq.
  { field. intros E. apply HN.
    unfold Qeq in E. simpl in E. lia. }
  rewrite (binary64_comp _ _ Hq). vm_compute. reflexivity.
Qed.

(** For a positive count in the range where the budget is exact, the
    budget always covers the iterations the count needs. *)
Lemma run_spec N s df0 :
  1 <= N <= budget_exact_up_to ->
  snd (generate s 1) = Returned df0 ->
  exists q l w' evs,
    py_truediv N (Z.min 5000 N) = Ok q /\
    (forall r, (inject_Z r < py_float_add_int q 1)%Q <->
               r * Z.min 5000 N < N + Z.min 5000 N) /\
    run pd_concat generate N s = (Ok l, w') /\
    loop_run pd_concat (Z.min 5000 N) (at_loop_entry N df0 q)
      (mkWorld (fst (generate s 1)) [Draw N 1 (Returned df0)] []) l w' evs.
Proof.
  intros HN H. destruct (budget_allows_iff N HN) as (q & Hq & Hiff).
  exists q. rewrite (run_first_returns N s df0 H), Hq.
  destruct (while_loop_run (Z.min 5000 N) ltac:(lia) (Z.to_nat (N - 1))
              (at_loop_entry N df0 q)
              (mkWorld (fst (generate s 1)) [Draw N 1 (Returned df0)] []))
    as (l & w' & evs & Hrun & Hpost); cbn [at_loop_entry count batch retries
                                           max_retries]; try lia.
  - apply Hiff.
    pose proof (ceil_div_mul_lt (N - 1) (Z.min 5000 N)). lia.
  - exists l, w', evs. auto.
Qed.

Lemma ceil_div_le_budget N :
  1 <= N -> ceil_div (N - 1) (Z.min 5000 N) <= N / Z.min 5000 N + 1.
Proof.
  intros HN. unfold ceil_div.
  assert (0 < Z.min 5000 N) as HB by lia.
  replace (N / Z.min 5000 N + 1)
    with ((N + 1 * Z.min 5000 N) / Z.min 5000 N)
    by (rewrite Z.div_add by lia; reflexivity).
  apply Z.div_le_mono; lia.
Qed.

Lemma py_truediv_Exc a b e :
  py_truediv a b = Exc e ->
  (b = 0 /\ e = ZeroDivisionError) \/ (b <> 0 /\ e = OverflowError).
Proof.
  unfold py_truediv. destruct (Z.eqb_spec b 0) as [Hb|Hb].
  - intros H. injection H as <-. auto.
  - destruct (too_large _); [|discriminate].
    intros H. injection H as <-. auto.
Qed.

(** The division returns for a negative count and for a positive count up
    to [budget_exact_up_to]. *)
Lemma py_truediv_returns N :
  N < 0 \/ 1 <= N <= budget_exact_up_to ->
  exists q, py_truediv N (Z.min 5000 N) = Ok q.
Proof.
  intros [HN|HN].
  - rewrite Z.min_r by lia. exists 1%Q. apply py_truediv_self. lia.
  - destruct (budget_allows_iff N HN) as (q & Hq & _). eauto.
Qed.

(** *** The claims about the loop *)

(** C1 (as the code has it).  The budget is the float
    [count / initial_batch + 1] of Python's true division, with
    [initial_batch = min(5000, count)]: the quotient rounded to a binary64
    number, plus one, rounded again; it is not floored.  The loop body
    never changes it, and the loop runs only while [retries] is strictly
    below it.  For a count up to [5000 * 2^39], when [initial_batch] does
    not divide [count] the budget lets [floor(count / initial_batch) + 2]
    iterations through, and [count / initial_batch + 1] when it does. *)
Theorem C1_budget_true_division N s l :
  1 <= N ->
  fst (run pd_concat generate N s) = Ok l ->
  (exists q,
      py_truediv N (Z.min 5000 N) = Ok q /\
      max_retries l = py_float_add_int q 1) /\
  (forall l0 w0 l1 w1,
      loop_body pd_concat generate l0 w0 = (Ok l1, w1) ->
      max_retries l1 = max_retries l0) /\
  (forall l0,
      loop_cond l0 = true -> (inject_Z (retries l0) < max_retries l0)%Q) /\
  (N <= budget_exact_up_to ->
   (N mod Z.min 5000 N <> 0 ->
    permits (max_retries l) (N / Z.min 5000 N + 2)) /\
   (N mod Z.min 5000 N = 0 ->
    permits (max_retries l) (N / Z.min 5000 N + 1))).
Proof.
  intros HN Hrun.
  assert (0 < Z.min 5000 N) as HB by lia.
  assert (exists q, py_truediv N (Z.min 5000 N) = Ok q /\
                    max_retries l = py_float_add_int q 1)
    as (q & Hq & Hmr).
  { destruct (snd (generate s 1)) as [df0|e] eqn:Ho.
    - rewrite (run_first_returns N s df0 Ho) in Hrun.
      destruct (py_truediv N (Z.min 5000 N)) as [q|e]; [|discriminate].
      exists q. split; [reflexivity|].
      destruct (while_loop_any _ (at_loop_entry N df0 q)
                  (mkWorld (fst (generate s 1)) [Draw N 1 (Returned df0)] [])
                  (le_n _))
        as (l' & w' & evs & Hw & _ & _ & _ & _ & Hmr & _).
      rewrite Hw in Hrun. simpl in Hrun. injection Hrun as <-. exact Hmr.
    - rewrite (run_first_raises N s e Ho) in Hrun. discriminate. }
  split; [exists q; auto|]. split; [|split].
  - intros l0 w0 l1 w1 Hb. rewrite loop_body_eq in Hb.
    injection Hb as <- _. reflexivity.
  - intros l0 Hc. apply loop_cond_true in Hc. tauto.
  - intros Hup.
    destruct (budget_allows_iff N (conj HN Hup)) as (q' & Hq' & Hiff).
    rewrite Hq in Hq'. injection Hq' as <-.
    pose proof (Z.div_mod N (Z.min 5000 N) ltac:(lia)) as Hdm.
    pose proof (Z.mod_pos_bound N (Z.min 5000 N) HB) as Hmod'.
    split; intros Hmod r Hr; rewrite Hmr, py_int_lt_float_iff, Hiff; nia.
Qed.

(** C2 (as the code has it).  For a count [1 <= N <= 5000 * 2^39], when
    every draw succeeds and every [pd.concat] returns its frames stacked,
    the function returns a frame of exactly [N] rows, every batch drawn in
    the loop has size [min(initial_batch, remaining count)] with
    [initial_batch = min(5000, N)], and the loop makes at most
    [floor(N / initial_batch) + 1] iterations. *)
Theorem C2_all_draws_succeed N s :
  1 <= N <= budget_exact_up_to ->
  Forall draw_ok (trace (snd (run pd_concat generate N s))) ->
  Forall stacked (concats (snd (run pd_concat generate N s))) ->
  exists l d0 evs,
    fst (run pd_concat generate N s) = Ok l /\
    fst (call pd_concat generate N s) = Ok (result l) /\
    Z.of_nat (length (result l)) = N /\
    trace (snd (run pd_concat generate N s)) = d0 :: evs /\
    d_asked d0 = 1 /\
    Forall (fun d => d_asked d = Z.min (Z.min 5000 N) (d_remaining d)) evs /\
    Z.of_nat (length evs) = retries l /\
    retries l <= N / Z.min 5000 N + 1.
Proof.
  intros HN Hok Hst.
  destruct (snd (generate s 1)) as [df0|e] eqn:Ho.
  - destruct (run_spec N s df0 HN Ho)
      as (q & l & w' & evs & Hq & Hiff & Hr & Hpost).
    destruct Hpost as [P1 P2 P3 P4 P5 P6 P7 P8 P9]. simpl in *.
    rewrite Hr in Hok, Hst. simpl in Hok, Hst. rewrite P4 in Hok.
    rewrite P9 in Hst.
    apply Forall_cons in Hok as [(df & Hdf & Hlen) Hevs].
    simpl in Hdf, Hlen. injection Hdf as <-.
    rewrite (result_after_stacked _ _ Hst) in P8.
    exists l, (Draw N 1 (Returned df0)), evs.
    rewrite call_run, Hr. simpl.
    repeat split; try assumption || reflexivity.
    + rewrite P8, length_app, Nat2Z.inj_add, (rows_drawn_ok evs Hevs). lia.
    + eapply Forall_impl; [exact P6|]. simpl. tauto.
    + lia.
    + rewrite P2. pose proof (ceil_div_le_budget N ltac:(lia)). lia.
  - rewrite (run_first_raises N s e Ho) in Hok. simpl in Hok.
    apply Forall_cons in Hok as [(df & Hdf & _) _]. discriminate.
Qed.

(** C3 (as the code has it).  For a count [N >= 1] whose quotient
    [N / min(5000, N)] does not overflow a float, when the first single-row
    draw succeeds and every draw in the loop fails, the function returns the
    one-row frame of the first draw, raises nothing and stops after at most
    [ceil(max_retries)] iterations, and with [retries] strictly below the
    budget for a count up to [5000 * 2^39]; and every iteration, whatever
    its draw does, subtracts the attempted batch size from [count] and adds
    one to [retries]. *)
Theorem C3_loop_draws_fail N s d0 evs df0 :
  1 <= N ->
  py_truediv N (Z.min 5000 N) <> Exc OverflowError ->
  trace (snd (run pd_concat generate N s)) = d0 :: evs ->
  d_outcome d0 = Returned df0 ->
  length df0 = 1%nat ->
  Forall (fun d => returned (d_outcome d) = false) evs ->
  (exists l,
      fst (run pd_concat generate N s) = Ok l /\
      fst (call pd_concat generate N s) = Ok df0 /\
      result l = df0 /\
      length (result l) = 1%nat /\
      Z.of_nat (length evs) = retries l /\
      retries l <= Z.max 0 (Qceiling (max_retries l)) /\
      (N <= budget_exact_up_to ->
       (inject_Z (retries l) < max_retries l)%Q)) /\
  (forall l0 w0, exists l1 w1 o,
      loop_body pd_concat generate l0 w0 = (Ok l1, w1) /\
      trace w1 =
        trace w0 ++ [Draw (count l0) (Z.min (batch l0) (count l0)) o] /\
      count l1 = count l0 - Z.min (batch l0) (count l0) /\
      retries l1 = retries l0 + 1).
Proof.
  intros HN Hdiv Htr Hd0 Hlen Hfail. split.
  - destruct (snd (generate s 1)) as [df|e] eqn:Ho.
    + pose proof (run_first_returns N s df Ho) as Hrun.
      destruct (py_truediv N (Z.min 5000 N)) as [q|e] eqn:Hq.
      * destruct (while_loop_any _ (at_loop_entry N df q)
                    (mkWorld (fst (generate s 1)) [Draw N 1 (Returned df)] [])
                    (le_n _))
          as (l & w' & evs' & Hw & _ & Htr' & Hlen' & Hret & Hmr & Hres & _).
        rewrite Hw in Hrun. rewrite Hrun in Htr. simpl in Htr, Htr'.
        rewrite Htr' in Htr. injection Htr as <- <-.
        simpl in Hd0. injection Hd0 as ->.
        destruct (result_after_failed evs' df0 Hfail) as [Hsame _].
        simpl in Hres, Hret, Hmr. rewrite Hsame in Hres.
        exists l. rewrite call_run, Hrun. simpl. rewrite Hres.
        repeat split; try assumption || reflexivity.
        -- lia.
        -- rewrite Hmr, Hret. unfold budget_left in Hlen'.
           simpl in Hlen'. lia.
        -- intros Hup.
           destruct (run_spec N s df0 (conj HN Hup) Ho)
             as (q' & l' & w'' & evs'' & Hq' & Hiff & Hr' & Hpost).
           rewrite Hrun in Hr'. injection Hr' as <- <-.
           rewrite Hq in Hq'. injection Hq' as <-.
           destruct Hpost as [P1 P2 P3 P4 P5 P6 P7 P8 P9]. simpl in *.
           rewrite P3, P2. apply Hiff.
           pose proof (ceil_div_mul_lt (N - 1) (Z.min 5000 N)). lia.
      * exfalso. apply py_truediv_Exc in Hq as [[Hb _]|[_ ->]]; [lia|].
        apply Hdiv. reflexivity.
    + rewrite (run_first_raises N s e Ho) in Htr. simpl in Htr.
      injection Htr as <- _. discriminate.
  - intros l0 w0.
    exists (fst (after_body pd_concat generate l0 w0)),
      (snd (after_body pd_concat generate l0 w0)),
      (snd (generate (model w0) (Z.min (batch l0) (count l0)))).
    rewrite loop_body_eq. simpl. auto.
Qed.

(** C6.  A failure of the first single-row draw reaches the caller, as
    that draw's exception.  No failure of a draw made in the loop does, nor
    one of [pd.concat]: neither the body nor the loop ever raises, and once
    the first draw has returned the function raises only what the division
    [count / batch] raises.  So for a negative count and for a count from 1
    to [5000 * 2^39] the function raises exactly when its first draw
    does. *)
Theorem C6_only_first_draw_propagates N s :
  (forall e, snd (generate s 1) = Raised e ->
             fst (call pd_concat generate N s) = Exc e) /\
  (forall df0 e, snd (generate s 1) = Returned df0 ->
     (fst (call pd_concat generate N s) = Exc e <->
      py_truediv N (Z.min 5000 N) = Exc e)) /\
  (forall l0 w0, exists l1 w1,
      loop_body pd_concat generate l0 w0 = (Ok l1, w1)) /\
  (forall l0 w0, exists l1 w1,
      while_loop pd_concat generate l0 w0 = (Ok l1, w1)) /\
  (N < 0 \/ 1 <= N <= budget_exact_up_to ->
   forall e, fst (call pd_concat generate N s) = Exc e <->
             snd (generate s 1) = Raised e).
Proof.
  assert (forall df0 e, snd (generate s 1) = Returned df0 ->
            (fst (call pd_concat generate N s) = Exc e <->
             py_truediv N (Z.min 5000 N) = Exc e)) as Hret.
  { intros df0 e Ho. rewrite call_run, (run_first_returns N s df0 Ho).
    destruct (py_truediv N (Z.min 5000 N)) as [q|e'].
    - destruct (while_loop_exits (at_loop_entry N df0 q)
                  (mkWorld (fst (generate s 1)) [Draw N 1 (Returned df0)] []))
        as (l & w' & -> & _).
      simpl. split; discriminate.
    - simpl. split; intros H; injection H as ->; reflexivity. }
  assert (forall e, snd (generate s 1) = Raised e ->
                    fst (call pd_concat generate N s) = Exc e) as Hraise.
  { intros e Ho. rewrite call_run, (run_first_raises N s e Ho). reflexivity. }
  split; [exact Hraise|]. split; [exact Hret|]. split; [|split].
  - intros l0 w0. rewrite loop_body_eq. eauto.
  - intros l0 w0. destruct (while_loop_exits l0 w0) as (l1 & w1 & H & _).
    eauto.
  - intros HN e. destruct (py_truediv_returns N HN) as [q Hq].
    destruct (snd (generate s 1)) as [df0|e'] eqn:Ho.
    + rewrite (Hret df0 e eq_refl), Hq. split; discriminate.
    + rewrite (Hraise e' eq_refl).
      split; intros H; injection H as ->; reflexivity.
Qed.

(** C7.  For [count = 1] the sampler is called once, for one row; the
    loop body is not entered ([retries] stays 0), and what the call
    returned is the result. *)
Theorem C7_count_one s :
  trace (snd (call pd_concat generate 1 s)) = [Draw 1 1 (snd (generate s 1))] /\
  model (snd (call pd_concat generate 1 s)) = fst (generate s 1) /\
  match snd (generate s 1) with
  | Returned df =>
      fst (call pd_concat generate 1 s) = Ok df /\
      exists l, fst (run pd_concat generate 1 s) = Ok l /\
                retries l = 0 /\ result l = df
  | Raised e => fst (call pd_concat generate 1 s) = Exc e
  end.
Proof.
  rewrite call_run. simpl.
  destruct (snd (generate s 1)) as [df0|e] eqn:Ho.
  - rewrite (run_first_returns 1 s df0 Ho).
    change (Z.min 5000 1) with 1. rewrite (py_truediv_self 1) by lia.
    rewrite while_loop_unfold.
    assert (loop_cond (at_loop_entry 1 df0 1) = false) as -> by reflexivity.
    simpl. repeat split. exists (at_loop_entry 1 df0 1). repeat split.
  - rewrite (run_first_raises 1 s e Ho). simpl. repeat split.
Qed.

(** C9 (as the code has it).  For a count [2 <= N <= 5000 * 2^39] whose
    first draw returned, whatever the draws in the loop do, the loop stops
    with [count = 0] after exactly [ceil((N - 1) / min(5000, N))]
    iterations, and the test [retries < max_retries] holds at every value
    [retries] takes, the last one included: the budget is never what ends
    the loop. *)
Theorem C9_budget_never_binds N s df0 :
  2 <= N <= budget_exact_up_to ->
  snd (generate s 1) = Returned df0 ->
  exists l d0 evs,
    fst (run pd_concat generate N s) = Ok l /\
    trace (snd (run pd_concat generate N s)) = d0 :: evs /\
    count l = 0 /\
    retries l = ceil_div (N - 1) (Z.min 5000 N) /\
    Z.of_nat (length evs) = ceil_div (N - 1) (Z.min 5000 N) /\
    (forall r, 0 <= r <= retries l ->
               py_int_lt_float r (max_retries l) = true).
Proof.
  intros HN Ho.
  destruct (run_spec N s df0 ltac:(lia) Ho)
    as (q & l & w' & evs & Hq & Hiff & Hr & Hpost).
  destruct Hpost as [P1 P2 P3 P4 P5 P6 P7 P8 P9]. simpl in *.
  exists l, (Draw N 1 (Returned df0)), evs. rewrite Hr. simpl.
  repeat split; try assumption.
  intros r Hr'. rewrite P3. apply py_int_lt_float_iff, Hiff.
  pose proof (ceil_div_mul_lt (N - 1) (Z.min 5000 N)). nia.
Qed.

(** C10.  For [count = 0] the function calls the sampler once, for one
    row, and then raises: [ZeroDivisionError] from [count / batch] with
    [batch = min(5000, 0) = 0] when the draw returned, the draw's own
    exception otherwise.  It never returns a frame. *)
Theorem C10_count_zero s :
  Z.min 5000 0 = 0 /\
  py_truediv 0 (Z.min 5000 0) = Exc ZeroDivisionError /\
  trace (snd (call pd_concat generate 0 s)) = [Draw 0 1 (snd (generate s 1))] /\
  is_ok (fst (call pd_concat generate 0 s)) = false /\
  match snd (generate s 1) with
  | Returned _ => fst (call pd_concat generate 0 s) = Exc ZeroDivisionError
  | Raised e => fst (call pd_concat generate 0 s) = Exc e
  end.
Proof.
  split; [reflexivity|]. split; [reflexivity|].
  rewrite call_run. simpl.
  destruct (snd (generate s 1)) as [df0|e] eqn:Ho.
  - rewrite (run_first_returns 0 s df0 Ho).
    change (py_truediv 0 (Z.min 5000 0)) with (@Exc Q ZeroDivisionError).
    simpl. repeat split.
  - rewrite (run_first_raises 0 s e Ho). simpl. repeat split.
Qed.

End SamplingFacts.
(** ** The constructor *)

(** Closed decidable facts hold by evaluating their decision procedure. *)
Ltac by_computation := apply (bool_decide_unpack _); vm_compute; exact I.

Section ConstructorFacts.

Variable DEVICE : pyval.
Variable validate : annotation -> pyval -> option pyval.
Variable Plugin__init__ : gmap string pyval -> py_result (gmap string pyval).

(** pydantic hands a value that already has the annotated type to the
    function as it is. *)
Hypothesis validate_typed :
  forall t v, has_type t v = true -> validate t v = Some v.

Implicit Types (kw env self : gmap string pyval) (x : string) (v : pyval).

Lemma foldl_assign_notin env xs : forall self x,
  x ∉ xs -> foldl (assign env) self xs !! x = self !! x.
Proof.
  induction xs as [|y ys IH]; intros self x Hx; [reflexivity|].
  apply not_elem_of_cons in Hx as [Hne Hx]. simpl. rewrite IH by exact Hx.
  unfold assign. destruct (env !! y); [|reflexivity].
  apply lookup_insert_ne. congruence.
Qed.

Lemma foldl_assign_in env xs : forall self x v,
  x ∈ xs -> env !! x = Some v -> foldl (assign env) self xs !! x = Some v.
Proof.
  induction xs as [|y ys IH]; intros self x v Hx Hv.
  - apply elem_of_nil in Hx as [].
  - simpl. destruct (decide (x ∈ ys)) as [Hin|Hnotin].
    + apply IH; assumption.
    + apply elem_of_cons in Hx as [->|Hx]; [|contradiction].
      rewrite foldl_assign_notin by exact Hnotin.
      unfold assign. rewrite Hv. apply lookup_insert_eq.
Qed.

(** Each parameter is bound on its own. *)
Lemma bind_params_lookup kw ps : forall env,
  bind_params validate ps kw = Ok env ->
  NoDup (map p_name ps) ->
  forall p, p ∈ ps ->
    exists v, bind_param validate kw p = Ok v /\ env !! p_name p = Some v.
Proof.
  induction ps as [|q ps IH]; intros env Hb Hnd p Hp.
  - apply elem_of_nil in Hp as [].
  - simpl in Hb, Hnd. apply NoDup_cons in Hnd as [Hq Hnd].
    destruct (bind_param validate kw q) as [vq|] eqn:Hbq; [|discriminate].
    destruct (bind_params validate ps kw) as [env'|] eqn:Hbs;
      [|discriminate].
    injection Hb as <-.
    apply elem_of_cons in Hp as [->|Hp].
    + exists vq. split; [exact Hbq | apply lookup_insert_eq].
    + destruct (IH env' eq_refl Hnd p Hp) as (v & Hv & Hl).
      exists v. split; [exact Hv|].
      rewrite lookup_insert_ne; [exact Hl|].
      intros Heq. apply Hq. rewrite Heq.
      apply list_elem_of_fmap. exists p. auto.
Qed.

Lemma bind_params_total kw ps :
  (forall p, p ∈ ps -> is_ok (bind_param validate kw p) = true) ->
  exists env, bind_params validate ps kw = Ok env.
Proof.
  induction ps as [|q ps IH]; intros H; simpl; [eauto|].
  pose proof (H q ltac:(left)) as Hq.
  destruct (bind_param validate kw q) as [vq|]; [|discriminate].
  destruct IH as [env ->]; [|eauto].
  intros p Hp. apply H. right. exact Hp.
Qed.

Lemma same_name_same_param (ps : list param) : forall p q,
  NoDup (map p_name ps) -> p ∈ ps -> q ∈ ps -> p_name p = p_name q -> p = q.
Proof.
  induction ps as [|r ps IH]; intros p q Hnd Hp Hq Hpq.
  - apply elem_of_nil in Hp as [].
  - simpl in Hnd. apply NoDup_cons in Hnd as [Hr Hnd].
    assert (forall a, a ∈ ps -> p_name a <> p_name r) as Hfresh.
    { intros a Ha Heq. apply Hr. rewrite <- Heq.
      apply list_elem_of_fmap. exists a. auto. }
    apply elem_of_cons in Hp as [->|Hp]; apply elem_of_cons in Hq as [->|Hq].
    + reflexivity.
    + exfalso. exact (Hfresh q Hq (eq_sym Hpq)).
    + exfalso. exact (Hfresh p Hp Hpq).
    + apply IH; assumption.
Qed.

Lemma signature_NoDup : NoDup (map p_name (signature DEVICE)).
Proof. by_computation. Qed.

Lemma typed_for_param x v p :
  typed_for DEVICE x v = true ->
  p ∈ signature DEVICE -> p_name p = x -> has_type (p_annot p) v = true.
Proof.
  unfold typed_for. intros H Hp Hx.
  apply existsb_exists in H as (q & Hq & Hqx).
  apply andb_true_iff in Hqx as [Hname Hty].
  apply String.eqb_eq in Hname. apply list_elem_of_In in Hq.
  rewrite (same_name_same_param (signature DEVICE) p q); auto.
  - apply signature_NoDup.
  - congruence.
Qed.

Lemma axes_are_parameters :
  Forall (fun x => x ∈ map p_name (signature DEVICE)) axis_names.
Proof. by_computation. Qed.

Lemma axes_are_assigned :
  Forall (fun x => x ∈ assigned /\ x <> "patience_metric") axis_names.
Proof. by_computation. Qed.

(** A configuration over the declared axes, each value of the type the
    constructor annotates: the call binds every parameter, passes the
    default keywords on to [Plugin.__init__], and leaves every configured
    value on the instance as it was given. *)
Lemma init_axes_config cfg self0 :
  (forall x v, cfg !! x = Some v ->
               x ∈ axis_names /\ typed_for DEVICE x v = true) ->
  Plugin__init__ (default_super_kwargs DEVICE) = Ok self0 ->
  exists self,
    __init__ DEVICE validate Plugin__init__ cfg = Ok self /\
    forall x v, cfg !! x = Some v -> self !! x = Some v.
Proof.
  intros Hcfg Hbase.
  assert (forall x, x ∉ axis_names -> cfg !! x = None) as Habsent.
  { intros x Hx. destruct (cfg !! x) as [v|] eqn:E; [|reflexivity].
    destruct (Hcfg x v E) as [Hin _]. contradiction. }
  assert (forall p, p ∈ signature DEVICE ->
            bind_param validate cfg p
            = Ok (default (p_default p) (cfg !! p_name p))) as Hbind.
  { intros p Hp. unfold bind_param.
    destruct (cfg !! p_name p) as [v|] eqn:E; [|reflexivity].
    destruct (Hcfg _ v E) as [_ Hty].
    rewrite (validate_typed _ _ (typed_for_param _ v p Hty Hp eq_refl)).
    reflexivity. }
  destruct (bind_params_total cfg (signature DEVICE)) as [env Henv].
  { intros p Hp. rewrite (Hbind p Hp). reflexivity. }
  assert (forall p, p ∈ signature DEVICE ->
            env !! p_name p = Some (default (p_default p) (cfg !! p_name p)))
    as Hlook.
  { intros p Hp.
    destruct (bind_params_lookup cfg _ env Henv signature_NoDup p Hp)
      as (v & Hv & Hl).
    rewrite (Hbind p Hp) in Hv. injection Hv as <-. exact Hl. }
  assert (forall i p, signature DEVICE !! i = Some p ->
            p_name p ∉ axis_names ->
            env !! p_name p = Some (p_default p)) as Hdef.
  { intros i p Hi Hp. rewrite (Hlook p (list_elem_of_lookup_2 _ i _ Hi)).
    rewrite (Habsent _ Hp). reflexivity. }
  assert (extra_kwargs DEVICE cfg = ∅) as Hextra.
  { apply map_empty_filter_2. intros x v Hx. simpl. intros Hnot.
    apply Hnot. destruct (Hcfg x v Hx) as [Hin _].
    exact (proj1 (Forall_forall _ _) axes_are_parameters x Hin). }
  assert (super_kwargs env ∅ = default_super_kwargs DEVICE) as Hsuper.
  { unfold super_kwargs.
    pose proof (Hdef 24%nat _ eq_refl) as Hdevice.
    pose proof (Hdef 23%nat _ eq_refl) as Hrandom_state.
    pose proof (Hdef 22%nat _ eq_refl) as Hsampling_patience.
    pose proof (Hdef 21%nat _ eq_refl) as Hcompress_dataset.
    pose proof (Hdef 20%nat _ eq_refl) as Hworkspace.
    cbn [p_name p_default] in *.
    rewrite Hdevice, Hrandom_state, Hsampling_patience, Hcompress_dataset,
      Hworkspace by by_computation.
    reflexivity. }
  unfold __init__. rewrite Henv, Hextra, Hsuper, Hbase.
  eexists. split; [reflexivity|].
  intros x v Hx. destruct (Hcfg x v Hx) as [Hin Hty].
  destruct (proj1 (Forall_forall _ _) axes_are_assigned x Hin)
    as [Hassigned Hne].
  apply foldl_assign_in; [exact Hassigned|].
  assert (env !! x = Some v) as Hv.
  { pose proof (proj1 (Forall_forall _ _) axes_are_parameters x Hin) as Hp.
    apply list_elem_of_fmap in Hp as (p & -> & Hp).
    rewrite (Hlook p Hp), Hx. reflexivity. }
  unfold rebind_patience_metric.
  destruct (env !! "patience_metric") as [[]|]; try exact Hv.
  destruct (env !! "workspace"); [|exact Hv].
  rewrite lookup_insert_ne by congruence. exact Hv.
Qed.

Lemma in_domain_typed d v kwargs :
  d ∈ hyperparameter_space kwargs ->
  in_domain d v = true -> typed_for DEVICE (dist_name d) v = true.
Proof.
  intros Hd Hv. unfold hyperparameter_space in Hd.
  repeat (apply elem_of_cons in Hd as [->|Hd]);
    try (apply elem_of_nil in Hd as []);
    destruct v; cbn in Hv; first [discriminate | reflexivity].
Qed.

Lemma Ok_inj {A : Type} (a b : A) : Ok a = Ok b -> a = b.
Proof. intros H. injection H as ->. reflexivity. Qed.

(** What a successful construction went through. *)
Lemma init_inv kw self :
  __init__ DEVICE validate Plugin__init__ kw = Ok self ->
  exists env self0,
    bind_params validate (signature DEVICE) kw = Ok env /\
    Plugin__init__ (super_kwargs env (extra_kwargs DEVICE kw)) = Ok self0 /\
    self = foldl (assign (rebind_patience_metric env)) self0 assigned.
Proof.
  unfold __init__. intros Hinit.
  destruct (bind_params validate (signature DEVICE) kw) as [env|];
    [|discriminate Hinit].
  destruct (Plugin__init__ _) as [self0|] eqn:Hsuper; [|discriminate Hinit].
  apply Ok_inj in Hinit. exists env, self0.
  split; [reflexivity|]. split; [exact Hsuper|]. symmetry. exact Hinit.
Qed.

Lemma rebind_patience_metric_lookup env pm ws :
  env !! "patience_metric" = Some pm ->
  env !! "workspace" = Some ws ->
  is_Some (rebind_patience_metric env !! "patience_metric").
Proof.
  intros Hpm Hws. unfold rebind_patience_metric. rewrite Hpm, Hws.
  destruct pm; eauto using lookup_insert_eq.
  rewrite lookup_insert_eq. eauto.
Qed.


(** C5.  [hyperparameter_space] ignores its keywords and always returns
    the same nine axes, in this order and with these domains; every axis
    name is a named parameter of [__init__], and a configuration drawn
    from the axes constructs a plugin that holds the drawn values. *)
Theorem C5_hyperparameter_space kwargs kwargs' cfg self0 :
  (forall x v, cfg !! x = Some v ->
     exists d, d ∈ hyperparameter_space kwargs /\
               dist_name d = x /\ in_domain d v = true) ->
  Plugin__init__ (default_super_kwargs DEVICE) = Ok self0 ->
  hyperparameter_space kwargs = hyperparameter_space kwargs' /\
  hyperparameter_space kwargs =
    [ IntegerDistribution "n_iter" 100 5000 (Some 100);
      IntegerDistribution "n_layers_hidden" 1 10 None;
      IntegerDistribution "n_units_hidden" 10 100 None;
      CategoricalDistribution "batch_size"
        [VInt 32; VInt 64; VInt 128; VInt 256; VInt 512];
      FloatDistribution "dropout" 0 0.2;
      CategoricalDistribution "batch_norm" [VBool true; VBool false];
      CategoricalDistribution "lr" [VFloat 1e-3; VFloat 1e-4; VFloat 2e-4];
      CategoricalDistribution "linear_transform_type"
        [VStr "lu"; VStr "permutation"; VStr "svd"];
      CategoricalDistribution "base_transform_type"
        [ VStr "affine-coupling"; VStr "quadratic-coupling";
          VStr "rq-coupling"; VStr "affine-autoregressive";
          VStr "quadratic-autoregressive"; VStr "rq-autoregressive" ] ] /\
  length (hyperparameter_space kwargs) = 9%nat /\
  (forall d, d ∈ hyperparameter_space kwargs ->
             dist_name d ∈ map p_name (signature DEVICE)) /\
  exists self,
    __init__ DEVICE validate Plugin__init__ cfg = Ok self /\
    forall x v, cfg !! x = Some v -> self !! x = Some v.
Proof.
  intros Hcfg Hbase.
  split; [reflexivity|]. split; [reflexivity|]. split; [reflexivity|].
  split.
  - intros d Hd.
    apply (proj1 (Forall_forall _ _) axes_are_parameters).
    apply list_elem_of_fmap. exists d. auto.
  - apply (init_axes_config cfg self0); [|exact Hbase].
    intros x v Hx. destruct (Hcfg x v Hx) as (d & Hd & <- & Hdom).
    split.
    + apply list_elem_of_fmap. exists d. auto.
    + exact (in_domain_typed d v kwargs Hd Hdom).
Qed.


End ConstructorFacts.


(** ** Worked examples *)

Lemma strict_validate_typed t v :
  has_type t v = true -> strict_validate t v = Some v.
Proof. intros H. unfold strict_validate. rewrite H. reflexivity. Defined.

Lemma steady_7000_run :
  fst (run stacking_concat steady_sampler 7000 0%nat) = Ok steady_7000.
Proof. vm_compute. reflexivity. Defined.

(** [_internal_generate(7000)]: the budget is the float nearest to
    7000 / 5000 + 1 = 2.4, which lets three iterations through. *)
Lemma C1_budget_true_division_witness :
  1 <= 7000 /\
  fst (run stacking_concat steady_sampler 7000 0%nat) = Ok steady_7000 /\
  7000 <= budget_exact_up_to /\
  7000 mod Z.min 5000 7000 <> 0 /\
  permits (max_retries steady_7000) (7000 / Z.min 5000 7000 + 2).
Proof.
  assert (7000 mod Z.min 5000 7000 <> 0) as Hmod by (vm_compute; discriminate).
  assert (7000 <= budget_exact_up_to) as Hup by (vm_compute; discriminate).
  split; [lia|]. split; [exact steady_7000_run|]. split; [exact Hup|].
  split; [exact Hmod|].
  exact (proj1 (proj2 (proj2 (proj2
    (C1_budget_true_division nat stacking_concat nat steady_sampler 7000
       0%nat steady_7000 ltac:(lia) steady_7000_run))) Hup) Hmod).
Defined.

(** C1 as stated fails at [count = 7000]: the budget is not the integer
    [floor(7000 / 5000) + 1 = 2], and it lets more than two iterations
    through. *)
Lemma C1_counterexample :
  7000 mod Z.min 5000 7000 <> 0 /\
  fst (run stacking_concat steady_sampler 7000 0%nat) = Ok steady_7000 /\
  ~ (max_retries steady_7000 == inject_Z (7000 / Z.min 5000 7000 + 1))%Q /\
  ~ permits (max_retries steady_7000) (7000 / Z.min 5000 7000 + 1).
Proof.
  split; [vm_compute; discriminate|]. split; [exact steady_7000_run|].
  split.
  - vm_compute. discriminate.
  - intros H. specialize (H 2 ltac:(lia)).
    assert (py_int_lt_float 2 (max_retries steady_7000) = true) as Hlt
      by (vm_compute; reflexivity).
    apply H in Hlt. vm_compute in Hlt. discriminate.
Qed.

Lemma steady_7000_draws_ok :
  Forall draw_ok (trace (snd (run stacking_concat steady_sampler 7000 0%nat))).
Proof.
  vm_compute.
  repeat (apply Forall_cons_2;
          [eexists; (split; [reflexivity | vm_compute; reflexivity])|]).
  apply Forall_nil_2.
Defined.

Lemma steady_7000_stacked :
  Forall stacked
    (concats (snd (run stacking_concat steady_sampler 7000 0%nat))).
Proof.
  vm_compute.
  repeat (apply Forall_cons_2; [vm_compute; reflexivity|]).
  apply Forall_nil_2.
Defined.

(** [generate(7000)] on a sampler that never fails: exactly 7000 rows, in
    batches of 5000 and 1999 after the first row. *)
Lemma C2_all_draws_succeed_witness :
  1 <= 7000 <= budget_exact_up_to /\
  Forall draw_ok
    (trace (snd (run stacking_concat steady_sampler 7000 0%nat))) /\
  Forall stacked
    (concats (snd (run stacking_concat steady_sampler 7000 0%nat))) /\
  exists l d0 evs,
    fst (run stacking_concat steady_sampler 7000 0%nat) = Ok l /\
    fst (call stacking_concat steady_sampler 7000 0%nat) = Ok (result l) /\
    Z.of_nat (length (result l)) = 7000 /\
    trace (snd (run stacking_concat steady_sampler 7000 0%nat)) = d0 :: evs /\
    d_asked d0 = 1 /\
    Forall (fun d => d_asked d = Z.min (Z.min 5000 7000) (d_remaining d)) evs /\
    Z.of_nat (length evs) = retries l /\
    retries l <= 7000 / Z.min 5000 7000 + 1.
Proof.
  assert (1 <= 7000 <= budget_exact_up_to) as HN
    by (split; vm_compute; discriminate).
  split; [exact HN|]. split; [exact steady_7000_draws_ok|].
  split; [exact steady_7000_stacked|].
  exact (C2_all_draws_succeed nat stacking_concat nat steady_sampler 7000
           0%nat HN steady_7000_draws_ok steady_7000_stacked).
Defined.

(** C2 as stated fails in two ways, with every draw succeeding.  At a count
    whose quotient by 5000 is too large for a float, the division raises
    [OverflowError] after the first draw and no frame is returned.  And
    when [pd.concat] raises, as it does on what is not a frame, the [try]
    statement drops the batch that was drawn: for [count = 7] the result
    has one row. *)
Lemma C2_counterexample :
  (1 <= overflowing_count /\
   Forall draw_ok
     (trace (snd (run stacking_concat steady_sampler overflowing_count
                    0%nat))) /\
   fst (call stacking_concat steady_sampler overflowing_count 0%nat)
   = Exc OverflowError) /\
  (Forall draw_ok (trace (snd (run refusing_concat steady_sampler 7 0%nat))) /\
   exists l,
     fst (run refusing_concat steady_sampler 7 0%nat) = Ok l /\
     fst (call refusing_concat steady_sampler 7 0%nat) = Ok (result l) /\
     Z.of_nat (length (result l)) = 1).
Proof.
  split; [split; [|split]|split].
  - vm_compute. discriminate.
  - vm_compute.
    repeat (apply Forall_cons_2;
            [eexists; (split; [reflexivity | vm_compute; reflexivity])|]).
    apply Forall_nil_2.
  - vm_compute. reflexivity.
  - vm_compute.
    repeat (apply Forall_cons_2;
            [eexists; (split; [reflexivity | vm_compute; reflexivity])|]).
    apply Forall_nil_2.
  - eexists. split; [vm_compute; reflexivity|].
    split; vm_compute; reflexivity.
Qed.

(** [generate(7)] on a sampler that dies after its first row. *)
Lemma C3_loop_draws_fail_witness :
  1 <= 7 /\
  py_truediv 7 (Z.min 5000 7) <> Exc OverflowError /\
  trace (snd (run stacking_concat dying_sampler 7 0%nat)) =
    [Draw 7 1 (Returned [0%nat]);
     Draw 6 6 (Raised (OtherError "RuntimeError"))] /\
  exists l,
    fst (run stacking_concat dying_sampler 7 0%nat) = Ok l /\
    fst (call stacking_concat dying_sampler 7 0%nat) = Ok [0%nat] /\
    result l = [0%nat] /\
    length (result l) = 1%nat /\
    Z.of_nat (length [Draw 6 6 (Raised (Row:=nat) (OtherError "RuntimeError"))])
      = retries l /\
    retries l <= Z.max 0 (Qceiling (max_retries l)) /\
    (7 <= budget_exact_up_to -> (inject_Z (retries l) < max_retries l)%Q).
Proof.
  assert (trace (snd (run stacking_concat dying_sampler 7 0%nat)) =
          [Draw 7 1 (Returned [0%nat]);
           Draw 6 6 (Raised (OtherError "RuntimeError"))]) as Htrace
    by (vm_compute; reflexivity).
  assert (py_truediv 7 (Z.min 5000 7) <> Exc OverflowError) as Hdiv
    by (vm_compute; discriminate).
  split; [lia|]. split; [exact Hdiv|]. split; [exact Htrace|].
  refine (proj1 (C3_loop_draws_fail nat stacking_concat nat dying_sampler 7
                   0%nat (Draw 7 1 (Returned [0%nat]))
                   [Draw 6 6 (Raised (OtherError "RuntimeError"))]
                   [0%nat] ltac:(lia) Hdiv Htrace eq_refl eq_refl _)).
  apply Forall_cons_2; [reflexivity | apply Forall_nil_2].
Defined.

(** C3 as stated fails at a count whose quotient by 5000 is too large for
    a float: the first draw succeeds, no draw in the loop succeeds, and the
    function raises [OverflowError] instead of returning the one row. *)
Lemma C3_counterexample :
  1 <= overflowing_count /\
  trace (snd (run stacking_concat dying_sampler overflowing_count 0%nat)) =
    [Draw overflowing_count 1 (Returned [0%nat])] /\
  py_truediv overflowing_count (Z.min 5000 overflowing_count)
  = Exc OverflowError /\
  fst (call stacking_concat dying_sampler overflowing_count 0%nat)
  = Exc OverflowError.
Proof.
  split; [vm_compute; discriminate|].
  repeat split; vm_compute; reflexivity.
Qed.

(** A dead sampler: the exception of the first draw is what the caller
    sees. *)
Lemma C6_only_first_draw_propagates_witness :
  snd (dead_sampler 0%nat 1) = Raised (OtherError "RuntimeError") /\
  fst (call stacking_concat dead_sampler 7 0%nat)
  = Exc (OtherError "RuntimeError").
Proof.
  split; [reflexivity|].
  exact (proj1 (C6_only_first_draw_propagates nat stacking_concat nat
                  dead_sampler 7 0%nat)
           (OtherError "RuntimeError") eq_refl).
Defined.

(** [generate(7000)] on a sampler that dies after its first row: two
    iterations, both allowed by the budget. *)
Lemma C9_budget_never_binds_witness :
  2 <= 7000 <= budget_exact_up_to /\
  snd (dying_sampler 0%nat 1) = Returned [0%nat] /\
  exists l d0 evs,
    fst (run stacking_concat dying_sampler 7000 0%nat) = Ok l /\
    trace (snd (run stacking_concat dying_sampler 7000 0%nat)) = d0 :: evs /\
    count l = 0 /\
    retries l = ceil_div (7000 - 1) (Z.min 5000 7000) /\
    Z.of_nat (length evs) = ceil_div (7000 - 1) (Z.min 5000 7000) /\
    (forall r, 0 <= r <= retries l ->
               py_int_lt_float r (max_retries l) = true).
Proof.
  assert (2 <= 7000 <= budget_exact_up_to) as HN
    by (split; vm_compute; discriminate).
  split; [exact HN|]. split; [reflexivity|].
  exact (C9_budget_never_binds nat stacking_concat nat dying_sampler 7000
           0%nat [0%nat] HN eq_refl).
Defined.

(** When the budget is a whole number, it is the number of iterations that
    are left. *)
Lemma budget_left_integral {Row : Type} (l : Locals Row) z :
  max_retries l = inject_Z z ->
  Z.of_nat (budget_left l) = Z.max 0 (z - retries l).
Proof.
  intros H. unfold budget_left. rewrite H, Qceiling_Z. lia.
Qed.

(** C9 as stated fails at [count = 5000 * 2^53 + 2].  The quotient
    [2^53 + 1/2500] and its successor both round to [2^53], so the budget
    is [2^53] while the count needs [2^53 + 1] iterations: the loop stops
    on [retries < max_retries] with one row still to be drawn. *)
Lemma C9_counterexample :
  2 <= coarse_count /\
  snd (steady_sampler 0%nat 1) = Returned [0%nat] /\
  exists l,
    fst (run stacking_concat steady_sampler coarse_count 0%nat) = Ok l /\
    count l = 1 /\
    retries l = 2 ^ 53 /\
    py_int_lt_float (retries l) (max_retries l) = false /\
    retries l < ceil_div (coarse_count - 1) (Z.min 5000 coarse_count).
Proof.
  split; [vm_compute; discriminate|]. split; [reflexivity|].
  rewrite (run_first_returns nat stacking_concat nat steady_sampler
             coarse_count 0%nat [0%nat] eq_refl).
  assert (py_truediv coarse_count (Z.min 5000 coarse_count)
          = Ok (inject_Z (2 ^ 53))) as -> by (vm_compute; reflexivity).
  set (l0 := at_loop_entry coarse_count [0%nat] (inject_Z (2 ^ 53))).
  set (w0 := mkWorld (fst (steady_sampler 0%nat 1))
               [Draw coarse_count 1 (Returned [0%nat])] []).
  assert (max_retries l0 = inject_Z (2 ^ 53)) as Hmr
    by (vm_compute; reflexivity).
  assert (retries l0 = 0) as Hr0 by reflexivity.
  assert (batch l0 = 5000) as Hb0 by (vm_compute; reflexivity).
  assert (count l0 = 5000 * 2 ^ 53 + 1) as Hc0 by (vm_compute; reflexivity).
  pose proof (budget_left_integral l0 _ Hmr) as Hbl.
  rewrite Hr0 in Hbl.
  assert (Z.max 0 (2 ^ 53 - 0) = 2 ^ 53) as Hmax by (vm_compute; reflexivity).
  rewrite Hmax in Hbl.
  destruct (while_loop_budget_binds nat stacking_concat nat steady_sampler
              (budget_left l0) l0 w0 eq_refl)
    as (l & w & Hrun & Hcount & Hret & Hmr').
  - rewrite Hb0. lia.
  - rewrite Hbl, Hb0, Hc0. vm_compute. reflexivity.
  - rewrite Hbl, Hb0, Hc0 in Hcount. rewrite Hbl, Hr0 in Hret.
    rewrite Hmr in Hmr'.
    exists l. rewrite Hrun, Hcount, Hret, Hmr'. cbn [fst].
    split; [reflexivity|]. repeat split; vm_compute; reflexivity.
Qed.


Lemma sampled_config_in_domain x v :
  ({["dropout" := VFloat 0.1; "batch_size" := VInt 64]}
     : gmap string pyval) !! x = Some v ->
  exists d, d ∈ hyperparameter_space ∅ /\
            dist_name d = x /\ in_domain d v = true.
Proof.
  intros H. apply lookup_insert_Some in H as [[<- <-]|[_ H]].
  - exists (FloatDistribution "dropout" 0 0.2).
    split; [apply (list_elem_of_lookup_2 _ 4%nat); reflexivity|].
    split; reflexivity.
  - apply lookup_singleton_Some in H as [<- <-].
    exists (CategoricalDistribution "batch_size"
              [VInt 32; VInt 64; VInt 128; VInt 256; VInt 512]).
    split; [apply (list_elem_of_lookup_2 _ 3%nat); reflexivity|].
    split; reflexivity.
Defined.

(** A configuration drawn from two of the axes constructs a plugin that
    holds both values. *)
Lemma C5_hyperparameter_space_witness :
  keeping_Plugin__init__ (default_super_kwargs cpu_device)
    = Ok (default_super_kwargs cpu_device) /\
  length (hyperparameter_space ∅) = 9%nat /\
  exists self,
    __init__ cpu_device strict_validate keeping_Plugin__init__
      {["dropout" := VFloat 0.1; "batch_size" := VInt 64]} = Ok self /\
    forall x v,
      ({["dropout" := VFloat 0.1; "batch_size" := VInt 64]}
         : gmap string pyval) !! x = Some v ->
      self !! x = Some v.
Proof.
  split; [reflexivity|].
  pose proof (C5_hyperparameter_space cpu_device strict_validate
                keeping_Plugin__init__ strict_validate_typed ∅ ∅
                {["dropout" := VFloat 0.1; "batch_size" := VInt 64]}
                (default_super_kwargs cpu_device)
                sampled_config_in_domain eq_refl) as H.
  split; [exact (proj1 (proj2 (proj2 H)))|].
  exact (proj2 (proj2 (proj2 (proj2 H)))).
Defined.




(** * Further properties *)

(** ** The loop, from any state *)

Section SamplingMore.

Variable Row : Type.
Variable pd_concat : list (DataFrame Row) -> py_result (DataFrame Row).
Variable ModelState : Type.
Variable generate : ModelState -> Z -> ModelState * outcome Row.

Implicit Types (l : Locals Row) (w : World Row ModelState) (d : draw Row).
Implicit Types (evs : list (draw Row)).

(** With a batch size that is not negative, [count] never grows, and every
    call asks for the smaller of the batch size and what remains. *)
Lemma while_loop_batches n : forall l w,
  (budget_left l <= n)%nat ->
  0 <= batch l ->
  exists l' w' evs,
    while_loop pd_concat generate l w = (Ok l', w') /\
    trace w' = trace w ++ evs /\
    Forall (fun d => 0 < d_remaining d <= count l /\
                     d_asked d = Z.min (batch l) (d_remaining d)) evs.
Proof.
  induction n as [|n IH]; intros l w Hn Hb; rewrite while_loop_unfold.
  - rewrite (budget_left_0 _ l) by lia.
    exists l, w, []. rewrite app_nil_r. auto using Forall_nil_2.
  - destruct (loop_cond l) eqn:Hc.
    + pose proof Hc as Hc'. apply loop_cond_true in Hc' as [Hpos Hlt].
      pose proof (budget_left_step _ pd_concat _ generate l w Hlt) as Hstep.
      destruct (IH (fst (after_body pd_concat generate l w))
                  (snd (after_body pd_concat generate l w)) ltac:(lia))
        as (l' & w' & evs & Hrun & Htr & Hall); [simpl; lia|].
      exists l', w',
        (Draw (count l) (Z.min (batch l) (count l))
           (snd (generate (model w) (Z.min (batch l) (count l)))) :: evs).
      simpl in Htr, Hall.
      split; [exact Hrun|].
      split; [rewrite Htr, <- app_assoc; reflexivity|].
      apply Forall_cons_2; [simpl; lia|].
      eapply Forall_impl; [exact Hall|]. simpl. intros d [Hrem Hask]. lia.
    + exists l, w, []. rewrite app_nil_r. auto using Forall_nil_2.
Qed.

(** X1.  Whenever [_internal_generate] returns and every [pd.concat] it
    made returned its frames stacked, its result is the frames that the
    calls of the sampler returned, stacked in the order of the calls: no row
    of a successful draw is dropped, repeated or moved. *)
Theorem result_in_call_order N s l :
  fst (run pd_concat generate N s) = Ok l ->
  Forall stacked (concats (snd (run pd_concat generate N s))) ->
  result l = rows_drawn (trace (snd (run pd_concat generate N s))).
Proof.
  intros Hrun Hst. destruct (snd (generate s 1)) as [df0|e] eqn:Ho.
  - rewrite (run_first_returns _ pd_concat _ generate N s df0 Ho) in *.
    destruct (py_truediv N (Z.min 5000 N)) as [q|e]; [|discriminate].
    destruct (while_loop_any _ pd_concat _ generate _ (at_loop_entry N df0 q)
                (mkWorld (fst (generate s 1)) [Draw N 1 (Returned df0)] [])
                (le_n _))
      as (l' & w' & evs & Hw & _ & Htr & _ & _ & _ & Hres & Hcs).
    rewrite Hw in *. simpl in Hrun, Htr, Hres, Hcs, Hst. injection Hrun as <-.
    rewrite Hcs in Hst.
    simpl. rewrite Htr, Hres, (result_after_stacked _ pd_concat _ _ Hst).
    reflexivity.
  - rewrite (run_first_raises _ pd_concat _ generate N s e Ho) in Hrun.
    discriminate.
Qed.

(** X2.  For a count [1 <= N <= 5000 * 2^39], when every frame the sampler
    returned has the size asked for and every [pd.concat] returned its
    frames stacked, the rows of the result and the sizes of the batches
    that failed add up to [N]: a failed batch is never asked for again. *)
Theorem shortfall_is_failed_batches N s l :
  1 <= N <= budget_exact_up_to ->
  fst (run pd_concat generate N s) = Ok l ->
  Forall sized (trace (snd (run pd_concat generate N s))) ->
  Forall stacked (concats (snd (run pd_concat generate N s))) ->
  Z.of_nat (length (result l))
  + asked_of_failed (trace (snd (run pd_concat generate N s))) = N.
Proof.
  intros HN Hrun Hsized Hst.
  destruct (snd (generate s 1)) as [df0|e] eqn:Ho.
  - destruct (run_spec _ pd_concat _ generate N s df0 HN Ho)
      as (q & l' & w' & evs & Hq & Hiff & Hr & Hpost).
    destruct Hpost as [P1 P2 P3 P4 P5 P6 P7 P8 P9]. simpl in *.
    rewrite Hr in *. simpl in Hrun, Hsized, Hst. injection Hrun as <-.
    simpl. rewrite P4 in *. rewrite P9 in Hst. simpl.
    apply Forall_cons in Hsized as [Hd0 Hevs].
    pose proof (rows_drawn_sized _ evs Hevs) as Hrows.
    specialize (Hd0 df0 eq_refl). simpl in Hd0.
    rewrite P8, (result_after_stacked _ pd_concat _ _ Hst).
    rewrite length_app, Nat2Z.inj_add. lia.
  - rewrite (run_first_raises _ pd_concat _ generate N s e Ho) in Hrun.
    discriminate.
Qed.

(** X3.  For a count [N >= 1] the sampler is first asked for one row, and
    every later call asks for [min(5000, count)] rows of the [count] that
    remain: at least 1, at most 5000, and never more than remain. *)
Theorem batches_are_bounded N s :
  1 <= N ->
  exists evs,
    trace (snd (run pd_concat generate N s))
    = Draw N 1 (snd (generate s 1)) :: evs /\
    Forall (fun d => 0 < d_remaining d < N /\
                     d_asked d = Z.min 5000 (d_remaining d) /\
                     1 <= d_asked d <= 5000 /\
                     d_asked d <= d_remaining d) evs.
Proof.
  intros HN. destruct (snd (generate s 1)) as [df0|e] eqn:Ho.
  - rewrite (run_first_returns _ pd_concat _ generate N s df0 Ho).
    destruct (py_truediv N (Z.min 5000 N)) as [q|e].
    + destruct (while_loop_batches _ (at_loop_entry N df0 q)
                  (mkWorld (fst (generate s 1)) [Draw N 1 (Returned df0)] [])
                  (le_n _))
        as (l' & w' & evs & Hw & Htr & Hall); [simpl; lia|].
      rewrite Hw. simpl in *. exists evs. split; [exact Htr|].
      eapply Forall_impl; [exact Hall|]. simpl. intros d [Hrem Hask]. lia.
    + simpl. exists []. auto using Forall_nil_2.
  - rewrite (run_first_raises _ pd_concat _ generate N s e Ho). simpl.
    exists []. auto using Forall_nil_2.
Qed.

(** X4.  For a count [2 <= N <= 5000] whose first draw returned, the loop
    makes a single call, for all the [N - 1] rows that remain.  The result
    is what [pd.concat] returned for the first frame and that call's frame:
    the two stacked when [pd.concat] stacks them; and it is the first frame
    alone when that call or [pd.concat] raised. *)
Theorem small_count_one_batch N s df0 :
  2 <= N <= 5000 ->
  snd (generate s 1) = Returned df0 ->
  exists l o,
    fst (run pd_concat generate N s) = Ok l /\
    trace (snd (run pd_concat generate N s)) =
      [Draw N 1 (Returned df0); Draw (N - 1) (N - 1) o] /\
    retries l = 1 /\
    match o with
    | Returned df =>
        concats (snd (run pd_concat generate N s))
        = [Concat [df0; df] (pd_concat [df0; df])] /\
        match pd_concat [df0; df] with
        | Ok r => result l = r
        | Exc _ => result l = df0
        end /\
        (pd_concat [df0; df] = Ok (concat [df0; df]) ->
         result l = df0 ++ df)
    | Raised _ =>
        concats (snd (run pd_concat generate N s)) = [] /\ result l = df0
    end.
Proof.
  intros HN Ho.
  rewrite (run_first_returns _ pd_concat _ generate N s df0 Ho).
  rewrite (Z.min_r 5000 N) by lia. rewrite (py_truediv_self N) by lia.
  rewrite while_loop_unfold.
  assert (py_float_add_int 1 1 = 2%Q) as Hmr by (vm_compute; reflexivity).
  assert (loop_cond (at_loop_entry N df0 1) = true) as ->.
  { apply loop_cond_true. unfold at_loop_entry.
    cbn [count retries max_retries]. rewrite Hmr. split; [lia|reflexivity]. }
  assert (Z.min (Z.min 5000 N) (N - 1) = N - 1) as Hmin by lia.
  set (o := snd (generate (fst (generate s 1)) (N - 1))).
  assert (after_body pd_concat generate (at_loop_entry N df0 1)
            (mkWorld (fst (generate s 1)) [Draw N 1 (Returned df0)] [])
          = (mkLocals 0 (N - 1) (after_try pd_concat df0 o)
               (py_float_add_int 1 1) 1,
             mkWorld (fst (generate (fst (generate s 1)) (N - 1)))
               [Draw N 1 (Returned df0); Draw (N - 1) (N - 1) o]
               (concat_calls pd_concat df0 o))) as ->.
  { unfold after_body, at_loop_entry.
    cbn [count batch retries max_retries result model trace concats].
    rewrite !Hmin, Z.sub_diag. reflexivity. }
  cbn [fst snd]. rewrite while_loop_unfold.
  assert (forall b r mr,
            loop_cond (mkLocals (Row:=Row) 0 b r mr 1) = false) as ->
    by reflexivity.
  cbn [fst snd trace concats retries result].
  eexists _, o.
  split; [reflexivity|]. split; [reflexivity|]. split; [reflexivity|].
  cbn [result]. unfold after_try, concat_calls.
  destruct o as [df|e].
  - split; [reflexivity|].
    destruct (pd_concat [df0; df]) as [r|e] eqn:Hc.
    + split; [reflexivity|]. intros H. injection H as ->.
      simpl. rewrite app_nil_r. reflexivity.
    + split; [reflexivity|]. discriminate.
  - split; reflexivity.
Qed.

(** X5.  For a negative count the sampler is still called once, for one
    row; the loop is not entered, nothing is divided by zero, and the frame
    of that call is the result. *)
Theorem negative_count_one_row N s :
  N < 0 ->
  trace (snd (call pd_concat generate N s)) = [Draw N 1 (snd (generate s 1))] /\
  match snd (generate s 1) with
  | Returned df => fst (call pd_concat generate N s) = Ok df
  | Raised e => fst (call pd_concat generate N s) = Exc e
  end.
Proof.
  intros HN. rewrite call_run. simpl.
  destruct (snd (generate s 1)) as [df0|e] eqn:Ho.
  - rewrite (run_first_returns _ pd_concat _ generate N s df0 Ho).
    rewrite (Z.min_r 5000 N) by lia. rewrite (py_truediv_self N) by lia.
    rewrite while_loop_unfold.
    assert (loop_cond (at_loop_entry N df0 1) = false) as ->.
    { unfold loop_cond, at_loop_entry. cbn [count].
      assert ((0 <? N - 1) = false) as -> by (apply Z.ltb_ge; lia).
      reflexivity. }
    simpl. split; reflexivity.
  - rewrite (run_first_raises _ pd_concat _ generate N s e Ho). simpl.
    split; reflexivity.
Qed.

(** X6.  From any locals the loop returns without raising, with its
    condition false; it calls the sampler at most
    [ceil(max_retries) - retries] times, adds one to [retries] per call and
    leaves [max_retries] as it was. *)
Theorem loop_is_bounded_by_budget l w :
  exists l' w' evs,
    while_loop pd_concat generate l w = (Ok l', w') /\
    loop_cond l' = false /\
    trace w' = trace w ++ evs /\
    Z.of_nat (length evs) <= Z.max 0 (Qceiling (max_retries l) - retries l) /\
    retries l' = retries l + Z.of_nat (length evs) /\
    max_retries l' = max_retries l.
Proof.
  destruct (while_loop_any _ pd_concat _ generate _ l w (le_n _))
    as (l' & w' & evs & Hw & Hexit & Htr & Hlen & Hret & Hmr & _).
  exists l', w', evs. unfold budget_left in Hlen.
  repeat split; try assumption. lia.
Qed.

End SamplingMore.

(** ** The constructor, for any keywords *)

Section ConstructorMore.

Variable DEVICE : pyval.
Variable validate : annotation -> pyval -> option pyval.
Variable Plugin__init__ : gmap string pyval -> py_result (gmap string pyval).

Implicit Types (kw env self : gmap string pyval) (x : string) (v : pyval).

Lemma bind_param_Exc kw p e :
  bind_param validate kw p = Exc e <->
  e = OtherError "ValidationError" /\
  exists v, kw !! p_name p = Some v /\ validate (p_annot p) v = None.
Proof.
  unfold bind_param. destruct (kw !! p_name p) as [v|].
  - destruct (validate (p_annot p) v) as [v'|] eqn:Hv.
    + split; [discriminate|]. intros (_ & v0 & Hv0 & Hnone).
      injection Hv0 as <-. congruence.
    + split.
      * intros H. injection H as <-. eauto.
      * intros [-> _]. reflexivity.
  - split; [discriminate|]. intros (_ & v0 & Hv0 & _). discriminate.
Qed.

Lemma bind_params_Exc kw ps : forall e,
  bind_params validate ps kw = Exc e <->
  e = OtherError "ValidationError" /\
  exists p v, p ∈ ps /\ kw !! p_name p = Some v /\
              validate (p_annot p) v = None.
Proof.
  induction ps as [|q ps IH]; intros e; simpl.
  - split; [discriminate|]. intros (_ & p & v & Hp & _).
    apply elem_of_nil in Hp as [].
  - destruct (bind_param validate kw q) as [vq|eq] eqn:Hq.
    + destruct (bind_params validate ps kw) as [env|e'] eqn:Hps.
      * split; [discriminate|]. intros (He & p & v & Hp & Hk & Hv).
        apply elem_of_cons in Hp as [->|Hp].
        -- assert (bind_param validate kw q = Exc e) as Hbad
             by (apply bind_param_Exc; eauto).
           congruence.
        -- assert (Ok env = Exc e) as Hbad
             by (apply IH; split; [exact He|]; eauto).
           discriminate Hbad.
      * destruct (proj1 (IH e') eq_refl) as (He' & p & v & Hp & Hk & Hv).
        split.
        -- intros H. injection H as <-.
           split; [exact He'|]. exists p, v.
           split; [right; exact Hp|]. auto.
        -- intros (-> & _). rewrite He'. reflexivity.
    + apply bind_param_Exc in Hq as (-> & v & Hk & Hv).
      split.
      * intros H. injection H as <-. split; [reflexivity|].
        exists q, v. split; [left|]. auto.
      * intros (-> & _). reflexivity.
Qed.

(** X7.  Construction raises in two ways only: [ValidationError] exactly
    when the validator rejects a keyword given for a named parameter,
    whatever the base class would do; and otherwise the exception of
    [Plugin.__init__], when that raises. *)
Theorem construction_failures kw e :
  __init__ DEVICE validate Plugin__init__ kw = Exc e <->
  (rejected DEVICE validate kw /\ e = OtherError "ValidationError") \/
  (exists env,
      bind_params validate (signature DEVICE) kw = Ok env /\
      Plugin__init__ (super_kwargs env (extra_kwargs DEVICE kw)) = Exc e).
Proof.
  unfold __init__, rejected.
  destruct (bind_params validate (signature DEVICE) kw) as [env|e'] eqn:Hb.
  - destruct (Plugin__init__ _) as [self0|e'] eqn:Hs.
    + split; [discriminate|]. intros [[(p & v & Hp & Hk & Hv) _]|H].
      * assert (Ok env = Exc (OtherError "ValidationError")) as Hbad.
        { rewrite <- Hb. apply bind_params_Exc. eauto 6. }
        discriminate Hbad.
      * destruct H as (env' & Henv' & Hbad). injection Henv' as <-.
        congruence.
    + split.
      * intros H. injection H as <-. right. eauto.
      * intros [[(p & v & Hp & Hk & Hv) _]|H].
        -- assert (Ok env = Exc (OtherError "ValidationError")) as Hbad.
           { rewrite <- Hb. apply bind_params_Exc. eauto 6. }
           discriminate Hbad.
        -- destruct H as (env' & Henv' & Hbad). injection Henv' as <-.
           congruence.
  - apply bind_params_Exc in Hb as (-> & Hrej).
    split.
    + intros H. injection H as <-. left. auto.
    + intros [[_ ->]|(env' & Henv' & _)]; [reflexivity|discriminate].
Qed.

Lemma rebind_patience_metric_other env x :
  x <> "patience_metric" -> rebind_patience_metric env !! x = env !! x.
Proof.
  intros Hx. unfold rebind_patience_metric.
  destruct (env !! "patience_metric") as [[]|]; try reflexivity.
  destruct (env !! "workspace"); [|reflexivity].
  apply lookup_insert_ne. congruence.
Qed.

(** X8.  After a successful construction every hyperparameter attribute
    other than [patience_metric] holds the value its parameter was bound
    to: the default when the keyword was absent, the validated argument
    otherwise. *)
Theorem construction_stores_bound_values kw self p :
  __init__ DEVICE validate Plugin__init__ kw = Ok self ->
  p ∈ signature DEVICE ->
  p_name p ∈ assigned ->
  p_name p <> "patience_metric" ->
  exists v,
    bind_param validate kw p = Ok v /\
    self !! p_name p = Some v /\
    (kw !! p_name p = None -> v = p_default p).
Proof.
  intros Hinit Hp Hassigned Hne.
  destruct (init_inv _ _ _ kw self Hinit) as (env & self0 & Henv & _ & ->).
  destruct (bind_params_lookup _ kw _ env Henv (signature_NoDup DEVICE) p Hp)
    as (v & Hv & Hl).
  exists v. split; [exact Hv|]. split.
  - apply foldl_assign_in; [exact Hassigned|].
    rewrite rebind_patience_metric_other by exact Hne. exact Hl.
  - intros Hnone. unfold bind_param in Hv. rewrite Hnone in Hv. congruence.
Qed.

(** X9.  The constructor writes the twenty attributes of its assignments
    and no other: whatever else [Plugin.__init__] left on the instance is
    still there, unchanged. *)
Theorem construction_keeps_base_attributes kw self :
  __init__ DEVICE validate Plugin__init__ kw = Ok self ->
  exists env self0,
    bind_params validate (signature DEVICE) kw = Ok env /\
    Plugin__init__ (super_kwargs env (extra_kwargs DEVICE kw)) = Ok self0 /\
    forall x, x ∉ assigned -> self !! x = self0 !! x.
Proof.
  intros Hinit.
  destruct (init_inv _ _ _ kw self Hinit) as (env & self0 & Henv & Hs & ->).
  exists env, self0. split; [exact Henv|]. split; [exact Hs|].
  intros x Hx. apply foldl_assign_notin. exact Hx.
Qed.

End ConstructorMore.

Section BaseKeywords.

Variable DEVICE : pyval.
Variable validate : annotation -> pyval -> option pyval.

Implicit Types (kw env : gmap string pyval) (x : string).

(** X10.  [Plugin.__init__] is called with the five parameters passed on by
    name, at the values they were bound to, and with every keyword that
    names no parameter, as given; no hyperparameter is passed to it. *)
Theorem base_constructor_keywords kw env x :
  bind_params validate (signature DEVICE) kw = Ok env ->
  super_kwargs env (extra_kwargs DEVICE kw) !! x =
  if bool_decide (x ∈ passed_on) then env !! x
  else if bool_decide (x ∈ map p_name (signature DEVICE)) then None
  else kw !! x.
Proof.
  intros Henv.
  assert (forall i p, signature DEVICE !! i = Some p ->
                      is_Some (env !! p_name p)) as Hsome.
  { intros i p Hi.
    destruct (bind_params_lookup _ kw _ env Henv (signature_NoDup DEVICE) p
                (list_elem_of_lookup_2 _ i _ Hi)) as (v & _ & Hl).
    eauto. }
  destruct (Hsome 24%nat _ eq_refl) as [vdev Hdev].
  destruct (Hsome 23%nat _ eq_refl) as [vrs Hrs].
  destruct (Hsome 22%nat _ eq_refl) as [vsp Hsp].
  destruct (Hsome 21%nat _ eq_refl) as [vcd Hcd].
  destruct (Hsome 20%nat _ eq_refl) as [vws Hws].
  cbn [p_name] in Hdev, Hrs, Hsp, Hcd, Hws.
  unfold super_kwargs. rewrite Hdev, Hrs, Hsp, Hcd, Hws.
  destruct (decide (x = "device")) as [->|N1];
    [rewrite lookup_insert_eq; symmetry; exact Hdev|].
  rewrite lookup_insert_ne by congruence.
  destruct (decide (x = "random_state")) as [->|N2];
    [rewrite lookup_insert_eq; symmetry; exact Hrs|].
  rewrite lookup_insert_ne by congruence.
  destruct (decide (x = "sampling_patience")) as [->|N3];
    [rewrite lookup_insert_eq; symmetry; exact Hsp|].
  rewrite lookup_insert_ne by congruence.
  destruct (decide (x = "workspace")) as [->|N4];
    [rewrite lookup_insert_eq; symmetry; exact Hws|].
  rewrite lookup_insert_ne by congruence.
  destruct (decide (x = "compress_dataset")) as [->|N5];
    [rewrite lookup_insert_eq; symmetry; exact Hcd|].
  rewrite lookup_insert_ne by congruence.
  rewrite bool_decide_eq_false_2.
  2:{ unfold passed_on. intros Hin.
      repeat (apply elem_of_cons in Hin as [->|Hin]; [congruence|]).
      apply elem_of_nil in Hin as []. }
  unfold extra_kwargs. rewrite map_lookup_filter.
  destruct (kw !! x) as [v|]; simpl.
  - case_bool_decide as Hin.
    + rewrite option_guard_False; [reflexivity|]. simpl. tauto.
    + rewrite option_guard_True; [reflexivity|]. exact Hin.
  - case_bool_decide; reflexivity.
Qed.

End BaseKeywords.

(** ** The declared axes *)

(** X11.  Every axis has a parameter of [__init__] of the same name, and
    that parameter's default lies in the domain of the axis, with one
    exception: the default [batch_size = 500] is not one of the choices
    32, 64, 128, 256, 512. *)
Theorem defaults_and_domains (DEVICE : pyval) (kwargs : gmap string pyval) :
  Forall (fun d =>
            exists p, p ∈ signature DEVICE /\ p_name p = dist_name d /\
                      in_domain d (p_default p)
                      = negb (String.eqb (dist_name d) "batch_size"))
    (hyperparameter_space kwargs).
Proof.
  unfold hyperparameter_space.
  repeat apply Forall_cons_2; try apply Forall_nil_2.
  - exists (Param "n_iter" TInt (VInt 1000)).
    split; [apply (list_elem_of_lookup_2 _ 0%nat); reflexivity|].
    split; reflexivity.
  - exists (Param "n_layers_hidden" TInt (VInt 1)).
    split; [apply (list_elem_of_lookup_2 _ 1%nat); reflexivity|].
    split; reflexivity.
  - exists (Param "n_units_hidden" TInt (VInt 100)).
    split; [apply (list_elem_of_lookup_2 _ 2%nat); reflexivity|].
    split; reflexivity.
  - exists (Param "batch_size" TInt (VInt 500)).
    split; [apply (list_elem_of_lookup_2 _ 3%nat); reflexivity|].
    split; reflexivity.
  - exists (Param "dropout" TFloat (VFloat 0.1)).
    split; [apply (list_elem_of_lookup_2 _ 5%nat); reflexivity|].
    split; reflexivity.
  - exists (Param "batch_norm" TBool (VBool false)).
    split; [apply (list_elem_of_lookup_2 _ 6%nat); reflexivity|].
    split; reflexivity.
  - exists (Param "lr" TFloat (VFloat 1e-3)).
    split; [apply (list_elem_of_lookup_2 _ 9%nat); reflexivity|].
    split; reflexivity.
  - exists (Param "linear_transform_type" TStr (VStr "permutation")).
    split; [apply (list_elem_of_lookup_2 _ 12%nat); reflexivity|].
    split; reflexivity.
  - exists (Param "base_transform_type" TStr (VStr "rq-autoregressive")).
    split; [apply (list_elem_of_lookup_2 _ 13%nat); reflexivity|].
    split; reflexivity.
Qed.

(** X12.  Whatever keywords it is given, [hyperparameter_space] returns
    axes with pairwise distinct names, each with a domain that has a
    value: bounds in order, a positive step, at least one choice. *)
Theorem axes_are_well_formed (kwargs : gmap string pyval) :
  NoDup (map dist_name (hyperparameter_space kwargs)) /\
  Forall (fun d => well_formed d = true) (hyperparameter_space kwargs) /\
  Forall (fun d => exists v, in_domain d v = true)
    (hyperparameter_space kwargs).
Proof.
  split; [by_computation|]. split; [by_computation|].
  unfold hyperparameter_space.
  repeat apply Forall_cons_2; try apply Forall_nil_2.
  - exists (VInt 100). reflexivity.
  - exists (VInt 1). reflexivity.
  - exists (VInt 10). reflexivity.
  - exists (VInt 32). reflexivity.
  - exists (VFloat 0). reflexivity.
  - exists (VBool true). reflexivity.
  - exists (VFloat 1e-3). reflexivity.
  - exists (VStr "lu"). reflexivity.
  - exists (VStr "affine-coupling"). reflexivity.
Qed.

(** ** Fitting *)

Section FitMore.

Variable DEVICE : pyval.
Variable validate : annotation -> pyval -> option pyval.
Variable Plugin__init__ : gmap string pyval -> py_result (gmap string pyval).
Variable dataframe : pyval -> py_result pyval.
Variable flow_init : string -> list pyval -> list (string * pyval)
                     -> option exn.
Variable model_fit : pyval -> pyval -> py_result pyval.

Implicit Types (kw env self : gmap string pyval) (x k : string) (v : pyval).
Implicit Types (kws : list (string * pyval)).

Lemma read_attrs_Ok self ks : forall kws,
  read_attrs self ks = Ok kws ->
  map fst kws = ks /\ Forall (fun kv => self !! kv.1 = Some kv.2) kws.
Proof.
  induction ks as [|k ks IH]; intros kws H; simpl in H.
  - injection H as <-. split; [reflexivity | apply Forall_nil_2].
  - unfold getattr in H. destruct (self !! k) as [v|] eqn:Hk; [|discriminate].
    destruct (read_attrs self ks) as [kws'|]; [|discriminate].
    injection H as <-. destruct (IH kws' eq_refl) as [Hnames Hall].
    split; [simpl; rewrite Hnames; reflexivity|].
    apply Forall_cons_2; [exact Hk | exact Hall].
Qed.

Lemma read_attrs_total self ks :
  Forall (fun k => is_Some (self !! k)) ks ->
  exists kws, read_attrs self ks = Ok kws.
Proof.
  induction 1 as [|k ks [v Hk] _ [kws IH]]; simpl; [eauto|].
  unfold getattr. rewrite Hk, IH. eauto.
Qed.

Lemma new_flow_Ok cls args kws m :
  new_flow flow_init cls args kws = Ok m ->
  flow_init cls args kws = None /\ m = VNew cls args kws.
Proof.
  unfold new_flow. destruct (flow_init cls args kws); [discriminate|].
  intros H. injection H as <-. auto.
Qed.

(** What a model that was built is. *)
Lemma build_model_inv self X m :
  build_model dataframe flow_init self X = Ok m ->
  exists tabular kws,
    self !! "tabular" = Some tabular /\
    (if truthy tabular
     then exists df, dataframe X = Ok df /\ m = VNew "TabularFlows" [df] kws
     else m = VNew "NormalizingFlows" [] kws) /\
    map fst kws = (if truthy tabular
                   then TabularFlows_keywords
                   else NormalizingFlows_keywords) /\
    Forall (fun kv => self !! kv.1 = Some kv.2) kws.
Proof.
  unfold build_model, getattr. intros H.
  destruct (self !! "tabular") as [t|]; [|discriminate].
  exists t. destruct (truthy t).
  - destruct (dataframe X) as [df|]; [|discriminate].
    destruct (read_attrs self TabularFlows_keywords) as [kws|] eqn:Hr;
      [|discriminate].
    apply new_flow_Ok in H as [_ ->]. exists kws.
    destruct (read_attrs_Ok _ _ _ Hr).
    split; [reflexivity|]. split; [exists df; auto|]. auto.
  - destruct (read_attrs self NormalizingFlows_keywords) as [kws|] eqn:Hr;
      [|discriminate].
    apply new_flow_Ok in H as [_ ->]. exists kws.
    destruct (read_attrs_Ok _ _ _ Hr). auto.
Qed.

(** X13.  The model [_fit] builds is chosen by the truth of
    [self.tabular]: [TabularFlows], constructed on the data frame, or
    [NormalizingFlows], constructed without it and without
    [encoder_max_clusters].  Either way its keywords are the listed names in
    order, each with the value of the attribute of that name. *)
Theorem model_built_from_attributes self X m :
  build_model dataframe flow_init self X = Ok m ->
  exists tabular kws,
    self !! "tabular" = Some tabular /\
    (if truthy tabular
     then exists df, dataframe X = Ok df /\ m = VNew "TabularFlows" [df] kws
     else m = VNew "NormalizingFlows" [] kws) /\
    map fst kws = (if truthy tabular
                   then TabularFlows_keywords
                   else NormalizingFlows_keywords) /\
    Forall (fun kv => self !! kv.1 = Some kv.2) kws.
Proof. exact (build_model_inv self X m). Qed.

Lemma constructed_has_assigned kw self x :
  __init__ DEVICE validate Plugin__init__ kw = Ok self ->
  x ∈ assigned -> is_Some (self !! x).
Proof.
  intros Hinit Hx.
  destruct (init_inv _ _ _ kw self Hinit) as (env & self0 & Henv & _ & ->).
  assert (x ∈ map p_name (signature DEVICE)) as Hp.
  { revert x Hx. apply Forall_forall. by_computation. }
  apply list_elem_of_fmap in Hp as (p & -> & Hp).
  destruct (bind_params_lookup _ kw _ env Henv (signature_NoDup DEVICE) p Hp)
    as (v & _ & Hl).
  destruct (decide (p_name p = "patience_metric")) as [Heq|Hne].
  - destruct (bind_params_lookup _ kw _ env Henv (signature_NoDup DEVICE)
                (Param "workspace" (TClass "Path")
                   (VNew "Path" [VStr "workspace"] []))
                ltac:(apply (list_elem_of_lookup_2 _ 20%nat); reflexivity))
      as (ws & _ & Hws).
    rewrite Heq in *. cbn [p_name] in Hws.
    destruct (rebind_patience_metric_lookup env v ws Hl Hws) as [v' Hv'].
    exists v'. apply foldl_assign_in; assumption.
  - exists v. apply foldl_assign_in; [exact Hx|].
    rewrite rebind_patience_metric_other by exact Hne. exact Hl.
Qed.

(** X14.  On a constructed plugin that has a [device] attribute, every
    attribute that [_fit] reads is there, so [_fit] raises only what
    [X.dataframe()], the constructor of the flow class or training raises.
    On the tabular path the data frame is read first, then the model is
    constructed; on the other path the model is constructed and assigned
    before the data frame is read.  [self] is unchanged when the failure
    comes before the assignment, and holds the untrained model after it. *)
Theorem fit_fails_only_in_collaborators kw self X :
  __init__ DEVICE validate Plugin__init__ kw = Ok self ->
  is_Some (self !! "device") ->
  exists tabular kws,
    self !! "tabular" = Some tabular /\
    read_attrs self (if truthy tabular
                     then TabularFlows_keywords
                     else NormalizingFlows_keywords) = Ok kws /\
    _fit dataframe flow_init model_fit self X =
    if truthy tabular then
      match dataframe X with
      | Exc e => (Exc e, self)
      | Ok df =>
          match flow_init "TabularFlows" [df] kws with
          | Some e => (Exc e, self)
          | None =>
              match model_fit (VNew "TabularFlows" [df] kws) df with
              | Exc e =>
                  (Exc e,
                   <["model" := VNew "TabularFlows" [df] kws]> self)
              | Ok trained =>
                  (Ok tt,
                   <["model" := trained]>
                     (<["model" := VNew "TabularFlows" [df] kws]> self))
              end
          end
      end
    else
      match flow_init "NormalizingFlows" [] kws with
      | Some e => (Exc e, self)
      | None =>
          match dataframe X with
          | Exc e =>
              (Exc e, <["model" := VNew "NormalizingFlows" [] kws]> self)
          | Ok df =>
              match model_fit (VNew "NormalizingFlows" [] kws) df with
              | Exc e =>
                  (Exc e, <["model" := VNew "NormalizingFlows" [] kws]> self)
              | Ok trained =>
                  (Ok tt,
                   <["model" := trained]>
                     (<["model" := VNew "NormalizingFlows" [] kws]> self))
              end
          end
      end.
Proof.
  intros Hinit Hdev.
  assert (forall ks, Forall (fun k => k ∈ assigned \/ k = "device") ks ->
                     exists kws, read_attrs self ks = Ok kws) as Hread.
  { intros ks Hks. apply read_attrs_total.
    eapply Forall_impl; [exact Hks|]. simpl. intros k [Hk| ->].
    - exact (constructed_has_assigned kw self k Hinit Hk).
    - exact Hdev. }
  destruct (constructed_has_assigned kw self "tabular" Hinit)
    as [t Ht]; [by_computation|].
  exists t. unfold _fit, build_model, getattr, new_flow. rewrite Ht.
  destruct (truthy t).
  - destruct (Hread TabularFlows_keywords) as [kws Hkws]; [by_computation|].
    exists kws. split; [reflexivity|]. split; [exact Hkws|].
    destruct (dataframe X) as [df|e]; [|reflexivity].
    rewrite Hkws.
    destruct (flow_init "TabularFlows" [df] kws); [reflexivity|].
    destruct (model_fit _ df); reflexivity.
  - destruct (Hread NormalizingFlows_keywords) as [kws Hkws];
      [by_computation|].
    exists kws. split; [reflexivity|]. split; [exact Hkws|].
    rewrite Hkws.
    destruct (flow_init "NormalizingFlows" [] kws); [reflexivity|].
    destruct (dataframe X) as [df|e]; [|reflexivity].
    destruct (model_fit _ df); reflexivity.
Qed.

(** X15.  [_fit] changes no attribute of the instance except [model],
    whether it returns or raises. *)
Theorem fit_touches_only_model self X x :
  x <> "model" ->
  snd (_fit dataframe flow_init model_fit self X) !! x = self !! x.
Proof.
  intros Hx. unfold _fit.
  destruct (build_model dataframe flow_init self X) as [m|]; [|reflexivity].
  destruct (dataframe X) as [df|]; simpl;
    [|rewrite ?lookup_insert_ne by congruence; reflexivity].
  destruct (model_fit m df); simpl;
    rewrite ?lookup_insert_ne by congruence; reflexivity.
Qed.


End FitMore.

(** ** Further worked examples *)

Lemma dying_7_run : fst (run stacking_concat dying_sampler 7 0%nat) = Ok dying_7.
Proof. vm_compute. reflexivity. Defined.

Lemma dying_7_trace :
  trace (snd (run stacking_concat dying_sampler 7 0%nat)) =
  [Draw 7 1 (Returned [0%nat]);
   Draw 6 6 (Raised (OtherError "RuntimeError"))].
Proof. vm_compute. reflexivity. Defined.

Lemma dropout_plugin_ok :
  is_ok (__init__ cpu_device strict_validate keeping_Plugin__init__
           {["dropout" := VFloat 0.05]}) = true.
Proof. vm_compute. reflexivity. Defined.

Lemma dropout_plugin_constructed :
  __init__ cpu_device strict_validate keeping_Plugin__init__
    {["dropout" := VFloat 0.05]} = Ok dropout_plugin.
Proof.
  pose proof dropout_plugin_ok as H. unfold dropout_plugin.
  destruct (__init__ cpu_device strict_validate keeping_Plugin__init__
              {["dropout" := VFloat 0.05]}) as [self|e].
  - reflexivity.
  - discriminate H.
Defined.

Lemma result_in_call_order_witness :
  fst (run stacking_concat steady_sampler 7000 0%nat) = Ok steady_7000 /\
  Forall stacked
    (concats (snd (run stacking_concat steady_sampler 7000 0%nat))) /\
  result steady_7000
  = rows_drawn (trace (snd (run stacking_concat steady_sampler 7000 0%nat))).
Proof.
  split; [exact steady_7000_run|]. split; [exact steady_7000_stacked|].
  exact (result_in_call_order nat stacking_concat nat steady_sampler 7000
           0%nat steady_7000 steady_7000_run steady_7000_stacked).
Defined.

Lemma dying_7_sized : Forall sized (trace (snd (run stacking_concat dying_sampler 7 0%nat))).
Proof.
  rewrite dying_7_trace.
  apply Forall_cons_2; [|apply Forall_cons_2; [|apply Forall_nil_2]].
  - intros df H. injection H as <-. reflexivity.
  - intros df H. discriminate H.
Defined.

Lemma dying_7_stacked :
  Forall stacked (concats (snd (run stacking_concat dying_sampler 7 0%nat))).
Proof. vm_compute. apply Forall_nil_2. Defined.

(** Seven rows asked for, six of them in a batch that failed: one row. *)
Lemma shortfall_is_failed_batches_witness :
  1 <= 7 <= budget_exact_up_to /\
  fst (run stacking_concat dying_sampler 7 0%nat) = Ok dying_7 /\
  Forall sized (trace (snd (run stacking_concat dying_sampler 7 0%nat))) /\
  Forall stacked (concats (snd (run stacking_concat dying_sampler 7 0%nat))) /\
  Z.of_nat (length (result dying_7))
  + asked_of_failed (trace (snd (run stacking_concat dying_sampler 7 0%nat)))
  = 7.
Proof.
  assert (1 <= 7 <= budget_exact_up_to) as HN
    by (split; vm_compute; discriminate).
  split; [exact HN|]. split; [exact dying_7_run|].
  split; [exact dying_7_sized|]. split; [exact dying_7_stacked|].
  exact (shortfall_is_failed_batches nat stacking_concat nat dying_sampler 7
           0%nat dying_7 HN dying_7_run dying_7_sized dying_7_stacked).
Defined.

Lemma batches_are_bounded_witness :
  1 <= 7000 /\
  exists evs,
    trace (snd (run stacking_concat steady_sampler 7000 0%nat))
    = Draw 7000 1 (snd (steady_sampler 0%nat 1)) :: evs /\
    Forall (fun d => 0 < d_remaining d < 7000 /\
                     d_asked d = Z.min 5000 (d_remaining d) /\
                     1 <= d_asked d <= 5000 /\
                     d_asked d <= d_remaining d) evs.
Proof.
  split; [lia|].
  exact (batches_are_bounded nat stacking_concat nat steady_sampler 7000 0%nat
           ltac:(lia)).
Defined.

(** [generate(7)] on the steady sampler: one batch of six rows, stacked
    under the first row. *)
Lemma small_count_one_batch_witness :
  2 <= 7 <= 5000 /\
  snd (steady_sampler 0%nat 1) = Returned [0%nat] /\
  exists l o,
    fst (run stacking_concat steady_sampler 7 0%nat) = Ok l /\
    trace (snd (run stacking_concat steady_sampler 7 0%nat)) =
      [Draw 7 1 (Returned [0%nat]); Draw (7 - 1) (7 - 1) o] /\
    retries l = 1 /\
    match o with
    | Returned df =>
        concats (snd (run stacking_concat steady_sampler 7 0%nat))
        = [Concat [[0%nat]; df] (stacking_concat [[0%nat]; df])] /\
        match stacking_concat [[0%nat]; df] with
        | Ok r => result l = r
        | Exc _ => result l = [0%nat]
        end /\
        (stacking_concat [[0%nat]; df] = Ok (concat [[0%nat]; df]) ->
         result l = [0%nat] ++ df)
    | Raised _ =>
        concats (snd (run stacking_concat steady_sampler 7 0%nat)) = [] /\
        result l = [0%nat]
    end.
Proof.
  split; [lia|]. split; [reflexivity|].
  exact (small_count_one_batch nat stacking_concat nat steady_sampler 7 0%nat
           [0%nat] ltac:(lia) eq_refl).
Defined.

Lemma negative_count_one_row_witness :
  -3 < 0 /\
  trace (snd (call stacking_concat steady_sampler (-3) 0%nat))
  = [Draw (-3) 1 (snd (steady_sampler 0%nat 1))] /\
  fst (call stacking_concat steady_sampler (-3) 0%nat) = Ok [0%nat].
Proof.
  split; [lia|].
  exact (negative_count_one_row nat stacking_concat nat steady_sampler (-3)
           0%nat ltac:(lia)).
Defined.

Lemma construction_stores_bound_values_witness :
  __init__ cpu_device strict_validate keeping_Plugin__init__
    {["dropout" := VFloat 0.05]} = Ok dropout_plugin /\
  exists v,
    bind_param strict_validate {["dropout" := VFloat 0.05]}
      (Param "dropout" TFloat (VFloat 0.1)) = Ok v /\
    dropout_plugin !! "dropout" = Some v /\
    (({["dropout" := VFloat 0.05]} : gmap string pyval) !! "dropout" = None ->
     v = VFloat 0.1).
Proof.
  split; [exact dropout_plugin_constructed|].
  refine (construction_stores_bound_values cpu_device strict_validate
            keeping_Plugin__init__ {["dropout" := VFloat 0.05]}
            dropout_plugin (Param "dropout" TFloat (VFloat 0.1))
            dropout_plugin_constructed _ _ _).
  - apply (list_elem_of_lookup_2 _ 5%nat). reflexivity.
  - by_computation.
  - discriminate.
Defined.

Lemma construction_keeps_base_attributes_witness :
  __init__ cpu_device strict_validate keeping_Plugin__init__
    {["dropout" := VFloat 0.05]} = Ok dropout_plugin /\
  exists env self0,
    bind_params strict_validate (signature cpu_device)
      {["dropout" := VFloat 0.05]} = Ok env /\
    keeping_Plugin__init__
      (super_kwargs env (extra_kwargs cpu_device {["dropout" := VFloat 0.05]}))
    = Ok self0 /\
    forall x, x ∉ assigned -> dropout_plugin !! x = self0 !! x.
Proof.
  split; [exact dropout_plugin_constructed|].
  exact (construction_keeps_base_attributes cpu_device strict_validate
           keeping_Plugin__init__ _ _ dropout_plugin_constructed).
Defined.

(** An unknown keyword [strict] reaches the base class as it was given. *)
Lemma base_constructor_keywords_witness :
  exists env,
    bind_params strict_validate (signature cpu_device)
      {["strict" := VBool false]} = Ok env /\
    super_kwargs env (extra_kwargs cpu_device {["strict" := VBool false]})
      !! "strict" = Some (VBool false).
Proof.
  assert (is_ok (bind_params strict_validate (signature cpu_device)
                   {["strict" := VBool false]}) = true) as Hok
    by (vm_compute; reflexivity).
  destruct (bind_params strict_validate (signature cpu_device)
              {["strict" := VBool false]}) as [env|e] eqn:E.
  - exists env. split; [reflexivity|].
    rewrite (base_constructor_keywords cpu_device strict_validate
               {["strict" := VBool false]} env "strict" E).
    reflexivity.
  - discriminate Hok.
Defined.

Lemma dropout_plugin_model :
  is_ok (build_model frame_of accepting_init dropout_plugin (VStr "X")) = true.
Proof. vm_compute. reflexivity. Defined.

Lemma model_built_from_attributes_witness :
  exists m tabular kws,
    build_model frame_of accepting_init dropout_plugin (VStr "X") = Ok m /\
    dropout_plugin !! "tabular" = Some tabular /\
    (if truthy tabular
     then exists df,
         frame_of (VStr "X") = Ok df /\ m = VNew "TabularFlows" [df] kws
     else m = VNew "NormalizingFlows" [] kws) /\
    map fst kws = (if truthy tabular
                   then TabularFlows_keywords
                   else NormalizingFlows_keywords) /\
    Forall (fun kv => dropout_plugin !! kv.1 = Some kv.2) kws.
Proof.
  pose proof dropout_plugin_model as Hok.
  destruct (build_model frame_of accepting_init dropout_plugin (VStr "X"))
    as [m|e] eqn:E.
  - exists m.
    destruct (model_built_from_attributes frame_of accepting_init
                dropout_plugin (VStr "X") m E) as (t & kws & H).
    exists t, kws. split; [reflexivity | exact H].
  - discriminate Hok.
Defined.

Lemma dropout_plugin_device : is_Some (dropout_plugin !! "device").
Proof. exists cpu_device. vm_compute. reflexivity. Defined.

(** A frame that cannot be read: on the tabular path [_fit] raises before
    anything is assigned. *)
Lemma fit_fails_only_in_collaborators_witness :
  exists tabular kws,
    dropout_plugin !! "tabular" = Some tabular /\
    read_attrs dropout_plugin (if truthy tabular
                               then TabularFlows_keywords
                               else NormalizingFlows_keywords) = Ok kws /\
    _fit no_frame accepting_init training_succeeds dropout_plugin (VStr "X") =
    if truthy tabular then (Exc (OtherError "IOError"), dropout_plugin)
    else (Exc (OtherError "IOError"),
          <["model" := VNew "NormalizingFlows" [] kws]> dropout_plugin).
Proof.
  destruct (fit_fails_only_in_collaborators cpu_device strict_validate
              keeping_Plugin__init__ no_frame accepting_init
              training_succeeds {["dropout" := VFloat 0.05]} dropout_plugin
              (VStr "X") dropout_plugin_constructed dropout_plugin_device)
    as (t & kws & Ht & Hkws & H).
  exists t, kws. split; [exact Ht|]. split; [exact Hkws|]. exact H.
Defined.

Lemma fit_touches_only_model_witness :
  "dropout" <> "model" /\
  snd (_fit frame_of accepting_init training_succeeds dropout_plugin
         (VStr "X")) !! "dropout"
  = dropout_plugin !! "dropout".
Proof.
  split; [discriminate|].
  exact (fit_touches_only_model frame_of accepting_init training_succeeds
           dropout_plugin (VStr "X") "dropout" ltac:(discriminate)).
Defined.

